(** * cookiesession: encrypted cookie sessions

    A shallow embedding of [cookiesession.go] and the properties of its
    session codec ([MarshalBinary] / [UnmarshalBinary]) and of its store
    ([Get], [Save], [Clear]).

    Conventions of the embedding.
    - Go's fixed-width integers are [Z] with the wrap-around written out
      ([uint64], [int64]); a [byte] is [Byte.byte].
    - A [[]byte] that is only read is the list of its elements; the one slice
      that is re-sliced without a length check ([encrypted] in [Get]) keeps
      its capacity, see [Slice].
    - A method with a pointer receiver takes the receiver and returns the
      updated receiver next to its result.
    - A call that can panic returns an [outcome].
    - What the package leaves to other packages (base64, the secretbox of
      NaCl) is the interface [Collaborators]; the clock and the random reader
      are the [World] a call runs in. *)

From Stdlib Require Import String Ascii DecimalString ZArith Lia Bool List.
From Stdlib Require Import Strings.Byte.
Import ListNotations.
Local Open Scope Z_scope.

(** ** Integers and bytes *)

Definition uint64 (z : Z) : Z := z mod 2 ^ 64.
Definition int64 (z : Z) : Z := (z + 2 ^ 63) mod 2 ^ 64 - 2 ^ 63.

Definition byte_to_Z (b : byte) : Z := Z.of_N (Byte.to_N b).

(** The conversion [byte(v)]: the low eight bits. *)
Definition byte_of_Z (z : Z) : byte :=
  match Byte.of_N (Z.to_N (z mod 256)) with
  | Some b => b
  | None => x00
  end.

(** [s[lo:hi]] on a slice given by its elements, for [lo <= hi <= len(s)]. *)
Definition sub (s : list byte) (lo hi : nat) : list byte :=
  firstn (hi - lo) (skipn lo s).

(** The builtin [copy(dst, src)]: the new contents of [dst]. *)
Definition copy (dst src : list byte) : list byte :=
  let n := Nat.min (length dst) (length src) in
  firstn n src ++ skipn n dst.

(** ** Errors and panics *)

Inductive error : Type :=
| ErrTooShort                     (* cookiesession.ErrTooShort *)
| ErrNoCookie                     (* http.ErrNoCookie *)
| ErrUUIDLength (n : nat)         (* uuid: the input is not 16 bytes long *)
| ErrCorruptInput (pos : nat)     (* base64.CorruptInputError *)
| ErrEOF                          (* io.EOF *)
| ErrUnexpectedEOF                (* io.ErrUnexpectedEOF *)
| ErrNew (msg : string).          (* errors.New(msg) *)

Definition decimal (n : nat) : string := NilEmpty.string_of_uint (Nat.to_uint n).

(** The method [Error()]. *)
Definition Error (e : error) : string :=
  match e with
  | ErrTooShort => "encoded session data is too short"
  | ErrNoCookie => "http: named cookie not present"
  | ErrUUIDLength n =>
      "uuid: UUID must be exactly 16 bytes long, got " ++ decimal n ++ " bytes"
  | ErrCorruptInput pos => "illegal base64 data at input byte " ++ decimal pos
  | ErrEOF => "EOF"
  | ErrUnexpectedEOF => "unexpected EOF"
  | ErrNew msg => msg
  end%string.

Inductive panic : Type :=
| SliceBounds (high : nat) (limit : nat)   (* slice bounds out of range *)
| MustFailed (e : error).                  (* uuid.Must on an error *)

Inductive outcome (A : Type) : Type :=
| Returned (a : A)
| Panicked (p : panic).
Arguments Returned {A} a.
Arguments Panicked {A} p.

(** ** Slices with a capacity *)

(** [backing] is the backing array from the first element of the slice to its
    capacity, [len] the length of the slice: [len <= length backing]. *)
Record Slice : Type := mkSlice { backing : list byte; len : nat }.

Definition elems (s : Slice) : list byte := firstn (len s) (backing s).
Definition cap (s : Slice) : nat := length (backing s).

(** [s[:hi]]: the upper bound is checked against the capacity. *)
Definition slice_to (s : Slice) (hi : nat) : outcome Slice :=
  if (hi <=? cap s)%nat then Returned (mkSlice (backing s) hi)
  else Panicked (SliceBounds hi (cap s)).

(** [s[lo:]]: the upper bound is the length, so [lo] is checked against it. *)
Definition slice_from (s : Slice) (lo : nat) : outcome Slice :=
  if (lo <=? len s)%nat then Returned (mkSlice (skipn lo (backing s)) (len s - lo))
  else Panicked (SliceBounds lo (len s)).

(** The invariant of a slice: its length is within its capacity. *)
Definition Slice_wf (s : Slice) : Prop := (len s <= cap s)%nat.

(** ** encoding/binary *)

Module binary.

(** [BigEndian.PutUint64(b, v)] for [len(b) >= 8]: the new contents of [b]. *)
Definition PutUint64 (b : list byte) (v : Z) : list byte :=
  [ byte_of_Z (Z.shiftr v 56); byte_of_Z (Z.shiftr v 48);
    byte_of_Z (Z.shiftr v 40); byte_of_Z (Z.shiftr v 32);
    byte_of_Z (Z.shiftr v 24); byte_of_Z (Z.shiftr v 16);
    byte_of_Z (Z.shiftr v 8); byte_of_Z v ] ++ skipn 8 b.

Definition at_ (b : list byte) (i : nat) : Z := byte_to_Z (nth i b x00).

(** [BigEndian.Uint64(b)] for [len(b) >= 8]. *)
Definition Uint64 (b : list byte) : Z :=
  Z.lor (Z.lor (Z.lor (Z.lor (Z.lor (Z.lor (Z.lor
    (at_ b 7)
    (Z.shiftl (at_ b 6) 8))
    (Z.shiftl (at_ b 5) 16))
    (Z.shiftl (at_ b 4) 24))
    (Z.shiftl (at_ b 3) 32))
    (Z.shiftl (at_ b 2) 40))
    (Z.shiftl (at_ b 1) 48))
    (Z.shiftl (at_ b 0) 56).

End binary.

(** The number a byte string writes in base 256, most significant byte
    first, continuing from [acc]. *)
Fixpoint big_endian (acc : Z) (l : list byte) : Z :=
  match l with
  | [] => acc
  | b :: l' => big_endian (acc * 256 + byte_to_Z b) l'
  end.

(** ** time *)

Module time.

(** A [Duration] is an int64 count of nanoseconds. *)
Definition Duration : Type := Z.
Definition Second : Duration := 1000000000.
Definition minDuration : Duration := - 2 ^ 63.
Definition maxDuration : Duration := 2 ^ 63 - 1.

(** An instant as its methods [sec()] and [nsec()] give it: int64 seconds
    since January 1 of year 1, and nanoseconds in [0, 1e9).  The location
    and the monotonic reading play no part in this package. *)
Record Time : Type := mkTime { sec : Z; nsec : Z }.

Definition unixToInternal : Z := 62135596800.
Definition internalToUnix : Z := - unixToInternal.

(** The ranges of the two fields. *)
Definition wf (t : Time) : Prop :=
  - 2 ^ 63 <= sec t < 2 ^ 63 /\ 0 <= nsec t < 1000000000.

(** The zero value [time.Time{}]. *)
Definition zero : Time := mkTime 0 0.

(** [time.Unix(sec, nsec)]. *)
Definition Unix (s n : Z) : Time :=
  let '(s, n) :=
    if (n <? 0) || (n >=? 1000000000) then
      let q := Z.quot n 1000000000 in
      let s := int64 (s + q) in
      let n := int64 (n - q * 1000000000) in
      if n <? 0 then (int64 (s - 1), n + 1000000000) else (s, n)
    else (s, n) in
  mkTime (int64 (s + unixToInternal)) n.

(** The method [t.Unix()]. *)
Definition Time_Unix (t : Time) : Z := int64 (sec t + internalToUnix).

(** The method [t.Sub(u)]: the difference in nanoseconds, or the largest
    (smallest) duration when it does not fit one. *)
Definition Time_Sub (t u : Time) : Duration :=
  let d := (sec t - sec u) * Second + (nsec t - nsec u) in
  if d >? maxDuration then maxDuration
  else if d <? minDuration then minDuration
  else d.

(** The method [t.Add(d)]; the seconds saturate. *)
Definition Time_Add (t : Time) (d : Duration) : Time :=
  let dsec := Z.quot d 1000000000 in
  let n := nsec t + Z.rem d 1000000000 in
  let '(dsec, n) :=
    if n >=? 1000000000 then (dsec + 1, n - 1000000000)
    else if n <? 0 then (dsec - 1, n + 1000000000)
    else (dsec, n) in
  let sum := int64 (sec t + dsec) in
  let s :=
    if Bool.eqb (sum >? sec t) (dsec >? 0) then sum
    else if dsec >? 0 then 2 ^ 63 - 1
    else - (2 ^ 63 - 1) in
  mkTime s n.

End time.

(** ** io *)

Module io.

(** A reader is the bytes it still delivers before it fails.
    [ReadFull(r, buf)] with [len(buf) = n]: the bytes read, the error, and
    the reader afterwards. *)
Definition ReadFull (r : list byte) (n : nat)
  : list byte * option error * list byte :=
  if (n <=? length r)%nat then (firstn n r, None, skipn n r)
  else match r with
       | [] => ([], Some ErrEOF, [])
       | _ => (r, Some ErrUnexpectedEOF, [])
       end.

End io.

(** ** uuid *)

Module uuid.

(** [UUID] is [[16]byte]: a list of 16 bytes. *)
Definition UUID : Type := list byte.
Definition Size : nat := 16.
Definition Nil : UUID := repeat x00 Size.

Definition wf (u : UUID) : Prop := length u = Size.

(** [u[i] = b] for [i < 16]. *)
Definition set_at (u : UUID) (i : nat) (b : byte) : UUID :=
  firstn i u ++ b :: skipn (S i) u.

Definition SetVersion (u : UUID) (v : Z) : UUID :=
  set_at u 6 (byte_of_Z (Z.lor (Z.land (byte_to_Z (nth 6 u x00)) 15)
                               (Z.shiftl v 4))).

Definition SetVariantRFC4122 (u : UUID) : UUID :=
  set_at u 8 (byte_of_Z (Z.lor (Z.land (byte_to_Z (nth 8 u x00)) 63)
                               (Z.shiftl 2 6))).

(** Modelled from the spec: the generator [uuid.NewV4] belongs to the uuid
    package, which is not among the sources; the specification asks of it a
    fresh random 128-bit identifier that is not zero.  As its name says it
    makes a random (version 4) identifier of RFC 4122: 16 bytes of the random
    reader, with 4 in the high nibble of byte 6 and the variant bits [10] on
    top of byte 8; [Nil] and the error when the read fails. *)
Definition NewV4 (rand : list byte) : UUID * option error :=
  match io.ReadFull rand Size with
  | (_, Some err, _) => (Nil, Some err)
  | (u, None, _) => (SetVariantRFC4122 (SetVersion u 4), None)
  end.

(** Modelled from the spec: the identifier parser [uuid.FromBytes] belongs to
    the uuid package, which is not among the sources; the specification asks
    of it [parse(16 bytes) -> 128-bit value | error]: sixteen bytes are a
    well-formed 128-bit value, any other length is a parse error. *)
Definition FromBytes (input : list byte) : UUID * option error :=
  if (length input =? Size)%nat then (copy Nil input, None)
  else (Nil, Some (ErrUUIDLength (length input))).

(** [Must(u, err)] panics on an error. *)
Definition Must (r : UUID * option error) : outcome UUID :=
  match r with
  | (_, Some err) => Panicked (MustFailed err)
  | (u, None) => Returned u
  end.

End uuid.

(** ** The session and its codec *)

Record Session : Type := mkSession {
  Valid : bool;
  Time : time.Time;
  SID : uuid.UUID;
  UID : uuid.UUID;
  RealUID : uuid.UUID;
  State : list byte
}.

(** The zero value [Session{}]. *)
Definition Session_zero : Session :=
  mkSession false time.zero uuid.Nil uuid.Nil uuid.Nil [].

Definition UnmarshalBinary (s : Session) (data : list byte)
  : Session * option error :=
  if (length data <? 8 + 16 + 16 + 16)%nat then (s, Some ErrTooShort)
  else
    match uuid.FromBytes (sub data 8 24) with
    | (_, Some err) => (s, Some err)
    | (sid, None) =>
      match uuid.FromBytes (sub data 24 40) with
      | (_, Some err) => (s, Some err)
      | (uid, None) =>
        match uuid.FromBytes (sub data 40 56) with
        | (_, Some err) => (s, Some err)
        | (realUID, None) =>
          ({| Valid := true;
              Time := time.Unix (int64 (binary.Uint64 data)) 0;
              SID := sid;
              UID := uid;
              RealUID := realUID;
              State := skipn 56 data |}, None)
        end
      end
    end.

Definition MarshalBinary (s : Session) : list byte * option error :=
  let buf := repeat x00 8 in
  let buf := binary.PutUint64 buf (uint64 (time.Time_Unix (Time s))) in
  let buf := buf ++ SID s in
  let buf := buf ++ UID s in
  let buf := buf ++ RealUID s in
  let buf := buf ++ State s in
  (buf, None).

(** ** net/http: cookies *)

Module http.

Record Cookie : Type := mkCookie {
  Name : string;
  Value : string;
  Path : string;
  Expires : time.Time;
  MaxAge : Z;
  Secure : bool;
  HttpOnly : bool
}.

(** A request is the cookies its [Cookie] header carries, in order (only
    [Name] and [Value] are set on them). *)
Definition Request : Type := list Cookie.

(** A cookie as a request carries it. *)
Definition sent (name value : string) : Cookie :=
  mkCookie name value "" time.zero 0 false false.

(** The method [r.Cookie(name)]: the first cookie of that name, or
    [ErrNoCookie]. *)
Definition Request_Cookie (r : Request) (name : string)
  : option Cookie * option error :=
  match find (fun c => String.eqb (Name c) name) r with
  | Some c => (Some c, None)
  | None => (None, Some ErrNoCookie)
  end.

(** A response writer is the cookies handed to [SetCookie] so far. *)
Definition ResponseWriter : Type := list Cookie.

Definition SetCookie (rw : ResponseWriter) (c : Cookie) : ResponseWriter :=
  rw ++ [c].

End http.

(** ** The collaborators: base64 and secretbox *)

Class Collaborators : Type := {
  (** [base64.StdEncoding.DecodeString(s)] *)
  base64_DecodeString : string -> Slice * option error;
  (** [base64.StdEncoding.EncodeToString(src)] *)
  base64_EncodeToString : list byte -> string;
  (** [secretbox.Open(out, box, nonce, key)] *)
  secretbox_Open : list byte -> list byte -> list byte -> list byte -> list byte * bool;
  (** [secretbox.Seal(out, message, nonce, key)] *)
  secretbox_Seal : list byte -> list byte -> list byte -> list byte -> list byte
}.

(** What a call observes of its surroundings: the value of [time.Now()] and
    the bytes [crypto/rand.Reader] delivers before it fails. *)
Record World : Type := mkWorld { now : time.Time; rand : list byte }.

(** ** The store *)

Record Store : Type := mkStore {
  Name : string;
  Secret : string;
  HttpOnly : bool;
  Secure : bool;
  TTL : time.Duration;
  Key : list byte
}.

(** [Session{SID: uuid.Must(uuid.NewV4())}], every early return of [Get]. *)
Definition anonymous (w : World) : outcome Session :=
  match uuid.Must (uuid.NewV4 (rand w)) with
  | Panicked p => Panicked p
  | Returned u =>
      Returned {| Valid := false; Time := time.zero; SID := u;
                  UID := uuid.Nil; RealUID := uuid.Nil; State := [] |}
  end.

(** [ss.Time = time.Now()]: the session as [Save] stamps it. *)
Definition stamped (ss : Session) (w : World) : Session :=
  {| Valid := Valid ss; Time := now w; SID := SID ss; UID := UID ss;
     RealUID := RealUID ss; State := State ss |}.

Section WithCollaborators.
Context {collab : Collaborators}.

Definition Get (s : Store) (r : http.Request) (w : World) : outcome Session :=
  match http.Request_Cookie r (Name s) with
  | (_, Some _) => anonymous w
  | (None, None) => anonymous w
  | (Some c, None) =>
    match base64_DecodeString (http.Value c) with
    | (_, Some _) => anonymous w
    | (encrypted, None) =>
      match slice_to encrypted 24 with
      | Panicked p => Panicked p
      | Returned head =>
        let nonce := copy (repeat x00 24) (elems head) in
        match slice_from encrypted 24 with
        | Panicked p => Panicked p
        | Returned tail =>
          match secretbox_Open [] (elems tail) nonce (Key s) with
          | (_, false) => anonymous w
          | (buf, true) =>
            match UnmarshalBinary Session_zero buf with
            | (_, Some _) => anonymous w
            | (ss, None) =>
              if time.Time_Sub (now w) (Time ss) >? TTL s then anonymous w
              else Returned ss
            end
          end
        end
      end
    end
  end.

(** The request carries, under the store's name, a cookie that decodes to at
    least 24 bytes, the first 24 being a nonce under which, with the
    store's key, the rest opens to the plaintext [buf]. *)
Definition carries (s : Store) (r : http.Request) (buf : list byte) : Prop :=
  exists (c : http.Cookie) (encrypted : Slice),
    http.Request_Cookie r (Name s) = (Some c, None) /\
    base64_DecodeString (http.Value c) = (encrypted, None) /\
    (24 <= len encrypted <= cap encrypted)%nat /\
    secretbox_Open [] (skipn 24 (elems encrypted))
                   (firstn 24 (elems encrypted)) (Key s) = (buf, true).

(** [Save] returns its error, the response writer and the session [ss]
    points to, both as the call leaves them. *)
Definition Save (s : Store) (rw : http.ResponseWriter) (ss : Session) (w : World)
  : option error * http.ResponseWriter * Session :=
  match io.ReadFull (rand w) 24 with
  | (_, Some err, _) =>
      (Some (ErrNew ("couldn't get random nonce: " ++ Error err)%string), rw, ss)
  | (nonce, None, _) =>
    let ss := {| Valid := Valid ss; Time := now w; SID := SID ss;
                 UID := UID ss; RealUID := RealUID ss; State := State ss |} in
    match MarshalBinary ss with
    | (_, Some err) =>
        (Some (ErrNew ("couldn't encode session: " ++ Error err)%string), rw, ss)
    | (buf, None) =>
        (None,
         http.SetCookie rw
           {| http.Path := "/";
              http.HttpOnly := HttpOnly s;
              http.Secure := Secure s;
              http.Name := Name s;
              http.Expires := time.Time_Add (Time ss) (TTL s);
              http.MaxAge := Z.quot (TTL s) time.Second;
              http.Value :=
                base64_EncodeToString (secretbox_Seal nonce buf nonce (Key s)) |},
         ss)
    end
  end.

End WithCollaborators.

(** [Clear] uses neither collaborator. *)
Definition Clear (s : Store) (rw : http.ResponseWriter) : http.ResponseWriter :=
  http.SetCookie rw
    {| http.Path := "/";
       http.HttpOnly := HttpOnly s;
       http.Secure := Secure s;
       http.Name := Name s;
       http.Expires := time.Unix 0 0;
       http.MaxAge := -1;
       http.Value := "" |}.

(** The conversion [int(v)] of a 64-bit value where [int] has [bits] bits
    (32 or 64, by the target): the low [bits] bits, read as a signed
    number. *)
Definition int (bits : Z) (v : Z) : Z :=
  (v + 2 ^ (bits - 1)) mod 2 ^ bits - 2 ^ (bits - 1).

(** [New]: the key is the SHA-256 digest of the secret, copied into the 32
    bytes of [Key].  The digest [sha256] is [h.Sum(nil)] after
    [h.Write([]byte(secret))]; crypto/sha256 being another package, it is a
    parameter.  [HttpOnly] and [Secure] keep their zero value. *)
Definition New (sha256 : list byte -> list byte)
           (name secret : string) (ttl : time.Duration) : Store :=
  let key := repeat x00 32 in
  let key := copy key (sha256 (list_byte_of_string secret)) in
  {| Name := name;
     Secret := secret;
     HttpOnly := false;
     Secure := false;
     TTL := ttl;
     Key := key |}.

(** ** A reference instance of the collaborators

    Used to run [Get] and [Save] on concrete requests: base64 with the
    standard alphabet and padding (RFC 4648), and a stand-in for the sealed
    box that has its shape (a 16-byte tag before the message) and rejects a
    box whose tag does not match key, nonce and message.  It makes no claim
    of secrecy. *)

Module Reference.

Definition alphabet : list ascii :=
  list_ascii_of_string
    "ABCDEFGHIJKLMNOPQRSTUVWXYZabcdefghijklmnopqrstuvwxyz0123456789+/".

Definition digit (n : Z) : ascii := nth (Z.to_nat n) alphabet "="%char.

Fixpoint index_of (c : ascii) (l : list ascii) (i : Z) : option Z :=
  match l with
  | [] => None
  | d :: l' => if Ascii.eqb c d then Some i else index_of c l' (i + 1)
  end.

Definition value (c : ascii) : option Z := index_of c alphabet 0.

Definition chars (l : list ascii) : string := string_of_list_ascii l.

Fixpoint encode (src : list byte) : list ascii :=
  match src with
  | [] => []
  | [a] =>
      let n := Z.shiftl (byte_to_Z a) 16 in
      [digit (Z.shiftr n 18); digit (Z.land (Z.shiftr n 12) 63);
       "="%char; "="%char]
  | [a; b] =>
      let n := Z.lor (Z.shiftl (byte_to_Z a) 16) (Z.shiftl (byte_to_Z b) 8) in
      [digit (Z.shiftr n 18); digit (Z.land (Z.shiftr n 12) 63);
       digit (Z.land (Z.shiftr n 6) 63); "="%char]
  | a :: b :: c :: rest =>
      let n := Z.lor (Z.lor (Z.shiftl (byte_to_Z a) 16)
                            (Z.shiftl (byte_to_Z b) 8)) (byte_to_Z c) in
      digit (Z.shiftr n 18) :: digit (Z.land (Z.shiftr n 12) 63)
        :: digit (Z.land (Z.shiftr n 6) 63) :: digit (Z.land n 63)
        :: encode rest
  end.

Definition EncodeToString (src : list byte) : string := chars (encode src).

Definition three (v1 v2 v3 v4 : Z) : list byte :=
  let n := Z.lor (Z.lor (Z.lor (Z.shiftl v1 18) (Z.shiftl v2 12))
                        (Z.shiftl v3 6)) v4 in
  [byte_of_Z (Z.shiftr n 16); byte_of_Z (Z.shiftr n 8); byte_of_Z n].

(** The quanta of four characters, from input position [pos]; padding is
    accepted in the last quantum only. *)
Fixpoint decode (cs : list ascii) (pos : nat) : list byte * option error :=
  match cs with
  | [] => ([], None)
  | c1 :: c2 :: c3 :: c4 :: rest =>
      match value c1, value c2, value c3, value c4 with
      | Some v1, Some v2, Some v3, Some v4 =>
          let '(out, err) := decode rest (pos + 4) in
          (three v1 v2 v3 v4 ++ out, err)
      | Some v1, Some v2, Some v3, None =>
          match rest with
          | [] => if Ascii.eqb c4 "=" then (firstn 2 (three v1 v2 v3 0), None)
                  else ([], Some (ErrCorruptInput (pos + 3)))
          | _ => ([], Some (ErrCorruptInput (pos + 3)))
          end
      | Some v1, Some v2, None, _ =>
          match rest with
          | [] => if Ascii.eqb c3 "=" && Ascii.eqb c4 "="
                  then (firstn 1 (three v1 v2 0 0), None)
                  else ([], Some (ErrCorruptInput (pos + 2)))
          | _ => ([], Some (ErrCorruptInput (pos + 2)))
          end
      | Some _, None, _, _ => ([], Some (ErrCorruptInput (pos + 1)))
      | None, _, _, _ => ([], Some (ErrCorruptInput pos))
      end
  | _ => ([], Some (ErrCorruptInput (pos + List.length cs)))
  end.

Definition newline (c : ascii) : bool :=
  Ascii.eqb c "010" || Ascii.eqb c "013".

(** [DecodeString]: the buffer has room for [len(s) / 4 * 3] bytes, the
    result is its prefix of the bytes decoded. *)
Definition DecodeString (s : string) : Slice * option error :=
  let cs := list_ascii_of_string s in
  let '(out, err) := decode (filter (fun c => negb (newline c)) cs) 0 in
  let room := (List.length cs / 4 * 3)%nat in
  (mkSlice (out ++ repeat x00 (room - List.length out)) (List.length out), err).

Definition xor_byte (a b : byte) : byte :=
  byte_of_Z (Z.lxor (byte_to_Z a) (byte_to_Z b)).

(** Folds [l] into the 16 bytes of [acc], byte [i] of [l] into byte
    [i mod 16]. *)
Fixpoint fold_tag (l : list byte) (acc : list byte) : list byte :=
  match l with
  | [] => acc
  | b :: l' =>
      match acc with
      | [] => []
      | a :: acc' => fold_tag l' (acc' ++ [xor_byte a b])
      end
  end.

Definition tag (message nonce key : list byte) : list byte :=
  fold_tag (key ++ nonce ++ message ++ repeat x01 16) (repeat x00 16).

Definition Seal (out message nonce key : list byte) : list byte :=
  out ++ tag message nonce key ++ message.

Definition eqb_bytes (a b : list byte) : bool :=
  if list_eq_dec Byte.byte_eq_dec a b then true else false.

Definition Open (out box nonce key : list byte) : list byte * bool :=
  if (List.length box <? 16)%nat then ([], false)
  else
    let message := skipn 16 box in
    if eqb_bytes (firstn 16 box) (tag message nonce key)
    then (out ++ message, true)
    else ([], false).

#[export] Instance collaborators : Collaborators := {
  base64_DecodeString := DecodeString;
  base64_EncodeToString := EncodeToString;
  secretbox_Open := Open;
  secretbox_Seal := Seal
}.

End Reference.

(** ** Concrete data for the examples *)

Module Example.

(** A store with a TTL of one second. *)
Definition store : Store :=
  {| Name := "session"; Secret := "s3cr3t"; HttpOnly := true; Secure := false;
     TTL := 1 * time.Second; Key := repeat x07 32 |}.

(** An authenticated session with two bytes of state. *)
Definition session : Session :=
  {| Valid := true;
     Time := time.mkTime (time.unixToInternal + 7) 250000000;
     SID := repeat x11 16; UID := repeat x22 16; RealUID := repeat x33 16;
     State := [x61; x62] |}.

(** 100.9 s, 101.0 s, 101.5 s and 102.5 s after the Unix epoch. *)
Definition t_save : time.Time := time.mkTime (time.unixToInternal + 100) 900000000.
Definition t_edge : time.Time := time.mkTime (time.unixToInternal + 101) 0.
Definition t_soon : time.Time := time.mkTime (time.unixToInternal + 101) 500000000.
Definition t_late : time.Time := time.mkTime (time.unixToInternal + 102) 500000000.

(** A random reader with 40 bytes left, and one that is exhausted. *)
Definition entropy : list byte := repeat x2a 40.
Definition exhausted : list byte := [].

(** The request that returns the cookies a response has set. *)
Definition echo (rw : http.ResponseWriter) : http.Request :=
  map (fun c => http.sent (http.Name c) (http.Value c)) rw.

(** The response to saving [session] at [t_save]. *)
Definition saved : option error * http.ResponseWriter * Session :=
  Save (collab := Reference.collaborators) store [] session
       (mkWorld t_save entropy).

Definition saved_cookies : http.ResponseWriter := snd (fst saved).

(** A stand-in digest of 32 bytes: the input cut or padded to 32 bytes. *)
Definition digest (data : list byte) : list byte :=
  firstn 32 (data ++ repeat x00 32).

(** Three cookie values [Get] rejects: not base64; base64 of 40 zero bytes,
    whose tag does not match; and a well sealed box of two bytes, too short
    for a session. *)
Definition not_base64 : string := "!!!!".
Definition forged : string := Reference.EncodeToString (repeat x00 40).
Definition sealed_short : string :=
  Reference.EncodeToString
    (Reference.Seal (repeat x09 24) [x01; x02] (repeat x09 24) (Key store)).

(** A store whose TTL is the largest duration. *)
Definition forever : Store :=
  {| Name := "session"; Secret := "s3cr3t"; HttpOnly := true; Secure := false;
     TTL := time.maxDuration; Key := repeat x07 32 |}.

(** About 317 years after [t_save]. *)
Definition t_far : time.Time := time.mkTime (time.unixToInternal + 10000000100) 0.

End Example.

(** * Properties *)

(** ** Bytes and fixed-width integers *)

Lemma byte_to_Z_range (b : byte) : 0 <= byte_to_Z b < 256.
Proof.
  unfold byte_to_Z. pose proof (Byte.to_N_bounded b). lia.
Qed.

Lemma byte_to_of_Z (z : Z) : byte_to_Z (byte_of_Z z) = z mod 256.
Proof.
  unfold byte_to_Z, byte_of_Z.
  assert (Hr : 0 <= z mod 256 < 256) by (apply Z.mod_pos_bound; lia).
  destruct (Byte.of_N (Z.to_N (z mod 256))) as [b|] eqn:E.
  - apply Byte.to_of_N in E. rewrite E. lia.
  - apply Byte.of_N_None_iff in E. lia.
Qed.

Lemma byte_of_to_Z (b : byte) : byte_of_Z (byte_to_Z b) = b.
Proof.
  pose proof (byte_to_Z_range b) as Hr.
  unfold byte_of_Z. rewrite Z.mod_small by exact Hr.
  unfold byte_to_Z. rewrite N2Z.id, Byte.of_to_N. reflexivity.
Qed.

Lemma uint64_range (z : Z) : 0 <= uint64 z < 2 ^ 64.
Proof. unfold uint64. apply Z.mod_pos_bound. lia. Qed.

Lemma uint64_idem (z : Z) : uint64 (uint64 z) = uint64 z.
Proof. unfold uint64. apply Zmod_mod. Qed.

Lemma int64_range (z : Z) : - 2 ^ 63 <= int64 z < 2 ^ 63.
Proof.
  unfold int64. pose proof (Z.mod_pos_bound (z + 2 ^ 63) (2 ^ 64)). lia.
Qed.

Lemma int64_small (z : Z) : - 2 ^ 63 <= z < 2 ^ 63 -> int64 z = z.
Proof. intros H. unfold int64. rewrite Z.mod_small; lia. Qed.

(** Wrapping is a congruence modulo [2^64]. *)
Lemma int64_mod (z : Z) : int64 z mod 2 ^ 64 = z mod 2 ^ 64.
Proof.
  unfold int64.
  rewrite Zminus_mod, Zmod_mod, <- Zminus_mod.
  f_equal. lia.
Qed.

Lemma int64_congr (a b : Z) : a mod 2 ^ 64 = b mod 2 ^ 64 -> int64 a = int64 b.
Proof.
  intros H. unfold int64.
  rewrite (Zplus_mod a), (Zplus_mod b), H. reflexivity.
Qed.

Lemma int64_uint64 (z : Z) : int64 (uint64 z) = int64 z.
Proof. apply int64_congr. unfold uint64. apply Zmod_mod. Qed.

Lemma int64_idem (z : Z) : int64 (int64 z) = int64 z.
Proof. apply int64_congr, int64_mod. Qed.

Lemma int64_add_int64_l (a b : Z) : int64 (int64 a + b) = int64 (a + b).
Proof.
  apply int64_congr.
  rewrite Zplus_mod, int64_mod, <- Zplus_mod. reflexivity.
Qed.

(** ** encoding/binary: reading back what was written *)

Lemma testbit_low_byte (v n : Z) :
  0 <= n -> Z.testbit (v mod 256) n = (n <? 8) && Z.testbit v n.
Proof.
  intros Hn. change 256 with (2 ^ 8). apply Z.testbit_mod_pow2. lia.
Qed.

Lemma testbit_byte_at (v k n : Z) :
  0 <= k -> 0 <= n ->
  Z.testbit (Z.shiftl ((Z.shiftr v k) mod 256) k) n
  = (k <=? n) && (n <? k + 8) && Z.testbit v n.
Proof.
  intros Hk Hn. rewrite Z.shiftl_spec by exact Hn.
  destruct (Z.leb_spec k n) as [Hle|Hlt].
  - rewrite testbit_low_byte by lia. rewrite Z.shiftr_spec by lia.
    replace (n - k + k) with n by lia.
    destruct (Z.ltb_spec (n - k) 8), (Z.ltb_spec n (k + 8)); try lia; reflexivity.
  - rewrite Z.testbit_neg_r by lia. reflexivity.
Qed.

Ltac split_compare :=
  repeat match goal with
         | |- context [?a <=? ?b] => destruct (Z.leb_spec a b); try lia
         | |- context [?a <? ?b] => destruct (Z.ltb_spec a b); try lia
         end.

Lemma Uint64_PutUint64 (b rest : list byte) (v : Z) :
  binary.Uint64 (binary.PutUint64 b v ++ rest) = uint64 v.
Proof.
  unfold binary.Uint64, binary.PutUint64, binary.at_, uint64.
  cbn [app nth]. rewrite !byte_to_of_Z.
  apply Z.bits_inj'. intros n Hn.
  rewrite !Z.lor_spec, !testbit_byte_at, testbit_low_byte by lia.
  rewrite Z.testbit_mod_pow2 by lia.
  split_compare; cbn [andb orb]; rewrite ?orb_false_r; reflexivity.
Qed.

(** ** time *)

Lemma Unix_whole (s : Z) : time.Unix s 0 = time.mkTime (int64 (s + time.unixToInternal)) 0.
Proof. reflexivity. Qed.

Lemma Time_Unix_Unix (s : Z) : time.Time_Unix (time.Unix s 0) = int64 s.
Proof.
  rewrite Unix_whole. unfold time.Time_Unix. cbn [time.sec].
  rewrite int64_add_int64_l. f_equal. unfold time.internalToUnix. lia.
Qed.

(** ** Slicing an encoded session *)

Lemma length_sub (s : list byte) (lo hi : nat) :
  (lo <= hi)%nat -> (hi <= length s)%nat -> length (sub s lo hi) = (hi - lo)%nat.
Proof.
  intros Hlo Hhi. unfold sub. rewrite length_firstn, length_skipn. lia.
Qed.

Lemma sub_app (a b c : list byte) (lo hi : nat) :
  lo = length a -> hi = (lo + length b)%nat -> sub (a ++ b ++ c) lo hi = b.
Proof.
  intros -> ->. unfold sub.
  rewrite skipn_app, skipn_all, Nat.sub_diag. cbn [skipn app].
  replace (length a + length b - length a)%nat with (length b) by lia.
  rewrite firstn_app, firstn_all, Nat.sub_diag. cbn [firstn].
  apply app_nil_r.
Qed.

Lemma skipn_app_exact (a b : list byte) (n : nat) :
  n = length a -> skipn n (a ++ b) = b.
Proof.
  intros ->. rewrite skipn_app, skipn_all, Nat.sub_diag. reflexivity.
Qed.

Lemma length_PutUint64 (v : Z) : length (binary.PutUint64 (repeat x00 8) v) = 8%nat.
Proof. reflexivity. Qed.

(** ** The identifier parser *)

Lemma FromBytes_16 (input : list byte) :
  length input = 16%nat -> uuid.FromBytes input = (input, None).
Proof.
  intros H. unfold uuid.FromBytes, uuid.Size. rewrite H. cbn [Nat.eqb].
  unfold copy. rewrite H. cbn [uuid.Nil uuid.Size repeat length Nat.min].
  rewrite <- H at 1. rewrite firstn_all. cbn [skipn]. rewrite app_nil_r.
  reflexivity.
Qed.

Lemma FromBytes_error (input : list byte) (e : error) :
  snd (uuid.FromBytes input) = Some e -> length input <> 16%nat.
Proof.
  unfold uuid.FromBytes, uuid.Size.
  destruct (Nat.eqb_spec (length input) 16); cbn [snd]; [discriminate | auto].
Qed.

(** ** The decoder, case by case *)

Lemma UnmarshalBinary_short (s : Session) (data : list byte) :
  (length data < 56)%nat -> UnmarshalBinary s data = (s, Some ErrTooShort).
Proof.
  intros H. unfold UnmarshalBinary.
  destruct (Nat.ltb_spec (length data) (8 + 16 + 16 + 16)); [reflexivity | lia].
Qed.

Lemma UnmarshalBinary_long (s : Session) (data : list byte) :
  (56 <= length data)%nat ->
  UnmarshalBinary s data =
    ({| Valid := true;
        Time := time.Unix (int64 (binary.Uint64 data)) 0;
        SID := sub data 8 24;
        UID := sub data 24 40;
        RealUID := sub data 40 56;
        State := skipn 56 data |}, None).
Proof.
  intros H. unfold UnmarshalBinary.
  destruct (Nat.ltb_spec (length data) (8 + 16 + 16 + 16)); [lia |].
  rewrite !FromBytes_16 by (rewrite length_sub; lia).
  reflexivity.
Qed.

Lemma lor_shiftl_add (a b k : Z) :
  0 <= k -> 0 <= a < 2 ^ k -> Z.lor a (Z.shiftl b k) = a + b * 2 ^ k.
Proof.
  intros Hk Ha. rewrite <- Z.shiftl_mul_pow2 by exact Hk.
  assert (Hdisj : Z.land a (Z.shiftl b k) = 0).
  { apply Z.bits_inj'. intros n Hn. rewrite Z.land_spec, Z.bits_0.
    destruct (Z.lt_ge_cases n k) as [Hlt|Hge].
    - rewrite (Z.shiftl_spec_low b k n) by exact Hlt. apply andb_false_r.
    - rewrite <- (Z.mod_small a (2 ^ k)) by exact Ha.
      rewrite Z.mod_pow2_bits_high by lia. reflexivity. }
  rewrite <- Z.lxor_lor by exact Hdisj.
  symmetry. apply Z.add_nocarry_lxor. exact Hdisj.
Qed.

Lemma Uint64_big_endian (data : list byte) :
  (8 <= length data)%nat -> binary.Uint64 data = big_endian 0 (firstn 8 data).
Proof.
  intros H.
  destruct data as [|b0 [|b1 [|b2 [|b3 [|b4 [|b5 [|b6 [|b7 data]]]]]]]];
    cbn [length] in H; try lia.
  unfold binary.Uint64, binary.at_. cbn [nth firstn big_endian].
  pose proof (byte_to_Z_range b0). pose proof (byte_to_Z_range b1).
  pose proof (byte_to_Z_range b2). pose proof (byte_to_Z_range b3).
  pose proof (byte_to_Z_range b4). pose proof (byte_to_Z_range b5).
  pose proof (byte_to_Z_range b6). pose proof (byte_to_Z_range b7).
  rewrite (lor_shiftl_add _ _ 8) by lia.
  rewrite (lor_shiftl_add _ _ 16) by lia.
  rewrite (lor_shiftl_add _ _ 24) by lia.
  rewrite (lor_shiftl_add _ _ 32) by lia.
  rewrite (lor_shiftl_add _ _ 40) by lia.
  rewrite (lor_shiftl_add _ _ 48) by lia.
  rewrite (lor_shiftl_add _ _ 56) by lia.
  lia.
Qed.

(** ** The codec *)

(** What decoding an encoded session gives, field by field. *)
Lemma UnmarshalBinary_MarshalBinary (r s : Session) :
  uuid.wf (SID s) -> uuid.wf (UID s) -> uuid.wf (RealUID s) ->
  UnmarshalBinary r (fst (MarshalBinary s)) =
    ({| Valid := true;
        Time := time.Unix (time.Time_Unix (Time s)) 0;
        SID := SID s; UID := UID s; RealUID := RealUID s;
        State := State s |}, None).
Proof.
  unfold uuid.wf, uuid.Size. intros Hsid Huid Hreal.
  unfold MarshalBinary. cbn [fst].
  set (p := binary.PutUint64 (repeat x00 8) (uint64 (time.Time_Unix (Time s)))).
  assert (Hp : length p = 8%nat) by apply length_PutUint64.
  rewrite <- !app_assoc.
  rewrite UnmarshalBinary_long by (rewrite !length_app; lia).
  f_equal. f_equal.
  - unfold p. rewrite Uint64_PutUint64, uint64_idem, int64_uint64.
    unfold time.Time_Unix. rewrite int64_idem. reflexivity.
  - apply sub_app; lia.
  - rewrite (app_assoc p). apply sub_app; rewrite ?length_app; lia.
  - rewrite (app_assoc p), (app_assoc (p ++ SID s)).
    apply sub_app; rewrite ?length_app; lia.
  - rewrite (app_assoc p), (app_assoc (p ++ SID s)),
      (app_assoc ((p ++ SID s) ++ UID s)).
    apply skipn_app_exact. rewrite !length_app. lia.
Qed.

(** C1. Round trip: for a session whose three identifiers are 128-bit values,
    encoding never fails and decoding the encoding succeeds with
    [Valid = true], the same Unix second and no nanoseconds, and [SID],
    [UID], [RealUID] and [State] byte for byte. *)
Theorem roundtrip_UnmarshalBinary_MarshalBinary (r s : Session) :
  uuid.wf (SID s) -> uuid.wf (UID s) -> uuid.wf (RealUID s) ->
  exists s' : Session,
    UnmarshalBinary r (fst (MarshalBinary s)) = (s', None) /\
    snd (MarshalBinary s) = None /\
    Valid s' = true /\
    time.Time_Unix (Time s') = time.Time_Unix (Time s) /\
    time.nsec (Time s') = 0 /\
    SID s' = SID s /\ UID s' = UID s /\ RealUID s' = RealUID s /\
    State s' = State s.
Proof.
  intros Hsid Huid Hreal.
  eexists. split; [apply UnmarshalBinary_MarshalBinary; assumption |].
  cbn [Valid Time SID UID RealUID State].
  repeat split.
  rewrite Time_Unix_Unix. unfold time.Time_Unix. apply int64_idem.
Qed.

Lemma roundtrip_witness :
  uuid.wf (SID Example.session) /\ uuid.wf (UID Example.session) /\
  uuid.wf (RealUID Example.session) /\
  exists s' : Session,
    UnmarshalBinary Session_zero (fst (MarshalBinary Example.session)) = (s', None) /\
    snd (MarshalBinary Example.session) = None /\
    Valid s' = true /\
    time.Time_Unix (Time s') = time.Time_Unix (Time Example.session) /\
    time.nsec (Time s') = 0 /\
    SID s' = SID Example.session /\ UID s' = UID Example.session /\
    RealUID s' = RealUID Example.session /\
    State s' = State Example.session.
Proof.
  split; [reflexivity |]. split; [reflexivity |]. split; [reflexivity |].
  apply (roundtrip_UnmarshalBinary_MarshalBinary Session_zero Example.session);
    reflexivity.
Defined.

(** C3. [UnmarshalBinary] returns [ErrTooShort] exactly when the input has
    fewer than 8+16+16+16 = 56 bytes.  On at least 56 bytes it succeeds with
    [Valid = true], the Unix time written big-endian in bytes 0..7, [SID],
    [UID] and [RealUID] from bytes 8..23, 24..39 and 40..55, and the rest
    (possibly nothing) as [State]. *)
Theorem UnmarshalBinary_layout (s : Session) (data : list byte) :
  (snd (UnmarshalBinary s data) = Some ErrTooShort
   <-> (length data < 8 + 16 + 16 + 16)%nat) /\
  ((56 <= length data)%nat ->
   UnmarshalBinary s data =
     ({| Valid := true;
         Time := time.Unix (int64 (big_endian 0 (firstn 8 data))) 0;
         SID := sub data 8 24;
         UID := sub data 24 40;
         RealUID := sub data 40 56;
         State := skipn 56 data |}, None) /\
   length (sub data 8 24) = 16%nat /\
   length (sub data 24 40) = 16%nat /\
   length (sub data 40 56) = 16%nat /\
   length (skipn 56 data) = (length data - 56)%nat).
Proof.
  split.
  - split.
    + intros Herr. destruct (Nat.lt_ge_cases (length data) 56) as [Hlt|Hge].
      * exact Hlt.
      * rewrite UnmarshalBinary_long in Herr by exact Hge. discriminate Herr.
    + intros Hlt. rewrite UnmarshalBinary_short by exact Hlt. reflexivity.
  - intros Hge. rewrite UnmarshalBinary_long by exact Hge.
    rewrite Uint64_big_endian by lia.
    rewrite !length_sub, length_skipn by lia. auto.
Qed.

Lemma UnmarshalBinary_layout_witness :
  (length (repeat x01 55) < 56)%nat /\
  snd (UnmarshalBinary Example.session (repeat x01 55)) = Some ErrTooShort /\
  (56 <= length (fst (MarshalBinary Example.session)))%nat /\
  State (fst (UnmarshalBinary Session_zero (fst (MarshalBinary Example.session))))
  = [x61; x62].
Proof.
  pose proof (UnmarshalBinary_layout Example.session (repeat x01 55)) as [Hshort _].
  pose proof (UnmarshalBinary_layout Session_zero (fst (MarshalBinary Example.session)))
    as [_ Hlong].
  assert (H55 : (length (repeat x01 55) < 56)%nat) by (vm_compute; lia).
  assert (H58 : (56 <= length (fst (MarshalBinary Example.session)))%nat)
    by (vm_compute; lia).
  split; [exact H55 |]. split; [exact (proj2 Hshort H55) |].
  split; [exact H58 |].
  destruct (Hlong H58) as [Heq _]. rewrite Heq. reflexivity.
Defined.

(** C9. Decoding is all or nothing: when [UnmarshalBinary] returns an error,
    the receiver is as it was; no field is written before every check has
    passed. *)
Theorem UnmarshalBinary_error_keeps_receiver (s : Session) (data : list byte) (e : error) :
  snd (UnmarshalBinary s data) = Some e -> fst (UnmarshalBinary s data) = s.
Proof.
  unfold UnmarshalBinary.
  destruct (length data <? 8 + 16 + 16 + 16)%nat; [reflexivity |].
  destruct (uuid.FromBytes (sub data 8 24)) as [sid [e1|]]; [reflexivity |].
  destruct (uuid.FromBytes (sub data 24 40)) as [uid [e2|]]; [reflexivity |].
  destruct (uuid.FromBytes (sub data 40 56)) as [realUID [e3|]]; [reflexivity |].
  cbn [snd]. discriminate.
Qed.

Lemma UnmarshalBinary_error_keeps_receiver_witness :
  snd (UnmarshalBinary Example.session [x01; x02; x03]) = Some ErrTooShort /\
  fst (UnmarshalBinary Example.session [x01; x02; x03]) = Example.session.
Proof.
  split; [reflexivity |].
  apply (UnmarshalBinary_error_keeps_receiver Example.session [x01; x02; x03] ErrTooShort).
  reflexivity.
Defined.

(** C10. On at least 56 bytes [UnmarshalBinary] succeeds: each of the three
    slices handed to the identifier parser has exactly 16 bytes, on which the
    parser does not fail; so the only error [UnmarshalBinary] ever returns is
    [ErrTooShort]. *)
Theorem UnmarshalBinary_succeeds_from_56 (s : Session) (data : list byte) :
  (56 <= length data)%nat ->
  snd (UnmarshalBinary s data) = None /\
  snd (uuid.FromBytes (sub data 8 24)) = None /\
  snd (uuid.FromBytes (sub data 24 40)) = None /\
  snd (uuid.FromBytes (sub data 40 56)) = None /\
  (forall (r : Session) (input : list byte) (e : error),
      snd (UnmarshalBinary r input) = Some e -> e = ErrTooShort).
Proof.
  intros Hge. rewrite UnmarshalBinary_long by exact Hge.
  rewrite !FromBytes_16 by (rewrite length_sub; lia).
  repeat split.
  intros r input e Herr.
  destruct (Nat.lt_ge_cases (length input) 56) as [Hlt|Hge'].
  - rewrite UnmarshalBinary_short in Herr by exact Hlt. cbn [snd] in Herr.
    congruence.
  - rewrite UnmarshalBinary_long in Herr by exact Hge'. discriminate Herr.
Qed.

Lemma UnmarshalBinary_succeeds_from_56_witness :
  (56 <= length (repeat xff 56))%nat /\
  snd (UnmarshalBinary Session_zero (repeat xff 56)) = None.
Proof.
  assert (H : (56 <= length (repeat xff 56))%nat) by (vm_compute; lia).
  split; [exact H |].
  exact (proj1 (UnmarshalBinary_succeeds_from_56 Session_zero (repeat xff 56) H)).
Defined.

(** ** Fresh anonymous sessions *)

Lemma version_byte_nonzero (b : byte) :
  byte_of_Z (Z.lor (Z.land (byte_to_Z b) 15) (Z.shiftl 4 4)) <> x00.
Proof. destruct b; vm_compute; discriminate. Qed.

(** With 16 bytes left in the random reader the generator succeeds, and the
    version nibble keeps its result apart from the nil identifier. *)
Lemma NewV4_succeeds (rand : list byte) :
  (16 <= length rand)%nat ->
  exists u : uuid.UUID, uuid.NewV4 rand = (u, None) /\ uuid.wf u /\ u <> uuid.Nil.
Proof.
  intros H. unfold uuid.NewV4, io.ReadFull, uuid.Size.
  destruct (Nat.leb_spec 16 (length rand)); [| lia].
  eexists. split; [reflexivity |].
  assert (Hl : length (firstn 16 rand) = 16%nat) by (rewrite length_firstn; lia).
  generalize dependent (firstn 16 rand). intros l Hl.
  do 16 (destruct l as [|? l]; [discriminate Hl |]).
  destruct l; [| discriminate Hl].
  split; [reflexivity |].
  unfold uuid.SetVariantRFC4122, uuid.SetVersion, uuid.set_at.
  cbn [firstn skipn nth app]. unfold uuid.Nil, uuid.Size. cbn [repeat].
  intros Heq. injection Heq as ?.
  match goal with
  | Hb : byte_of_Z _ = x00 |- _ => exact (version_byte_nonzero _ Hb)
  end.
Qed.

Lemma NewV4_fails (rand : list byte) :
  (length rand < 16)%nat -> exists e : error, uuid.NewV4 rand = (uuid.Nil, Some e).
Proof.
  intros H. unfold uuid.NewV4, io.ReadFull, uuid.Size.
  destruct (Nat.leb_spec 16 (length rand)); [lia |].
  destruct rand; eexists; reflexivity.
Qed.

Lemma anonymous_returns (w : World) :
  (16 <= length (rand w))%nat ->
  exists u : uuid.UUID,
    anonymous w = Returned {| Valid := false; Time := time.zero; SID := u;
                              UID := uuid.Nil; RealUID := uuid.Nil; State := [] |} /\
    uuid.NewV4 (rand w) = (u, None) /\ uuid.wf u /\ u <> uuid.Nil.
Proof.
  intros H. destruct (NewV4_succeeds (rand w) H) as (u & Hu & Hwf & Hnz).
  exists u. unfold anonymous. rewrite Hu. cbn [uuid.Must]. auto.
Qed.

Lemma anonymous_panics (w : World) :
  (length (rand w) < 16)%nat ->
  exists e : error, anonymous w = Panicked (MustFailed e).
Proof.
  intros H. destruct (NewV4_fails (rand w) H) as (e & He).
  exists e. unfold anonymous. rewrite He. reflexivity.
Qed.

(** ** Looking up the cookie *)

Lemma Request_Cookie_absent (r : http.Request) (name : string) :
  (forall c, In c r -> http.Name c <> name) ->
  http.Request_Cookie r name = (None, Some ErrNoCookie).
Proof.
  unfold http.Request_Cookie. induction r as [|a r IH]; intros H.
  - reflexivity.
  - cbn [find]. destruct (String.eqb_spec (http.Name a) name) as [Heq|Hne].
    + exfalso. apply (H a); [left; reflexivity | exact Heq].
    + apply IH. intros c Hc. apply H. right. exact Hc.
Qed.

Lemma Request_Cookie_sent (name value : string) (r : http.Request) :
  http.Request_Cookie (http.sent name value :: r) name
  = (Some (http.sent name value), None).
Proof.
  unfold http.Request_Cookie. cbn [find http.sent http.Name].
  rewrite String.eqb_refl. reflexivity.
Qed.

(** ** The nonce and the box of a decoded cookie *)

Lemma nonce_of_slice (encrypted : Slice) :
  (24 <= len encrypted <= cap encrypted)%nat ->
  copy (repeat x00 24) (firstn 24 (backing encrypted))
  = firstn 24 (elems encrypted).
Proof.
  unfold cap, elems, copy. intros H.
  rewrite length_firstn, repeat_length.
  replace (Nat.min 24 (Nat.min 24 (length (backing encrypted)))) with 24%nat by lia.
  rewrite !firstn_firstn.
  replace (Nat.min 24 (len encrypted)) with 24%nat by lia.
  replace (Nat.min 24 24) with 24%nat by lia.
  change (skipn 24 (repeat x00 24)) with (@nil byte). apply app_nil_r.
Qed.

Lemma box_of_slice (encrypted : Slice) :
  firstn (len encrypted - 24) (skipn 24 (backing encrypted))
  = skipn 24 (elems encrypted).
Proof. unfold elems. symmetry. apply skipn_firstn_comm. Qed.

(** ** Get *)

Section GetProperties.
Context {collab : Collaborators}.

Lemma Get_no_cookie (s : Store) (r : http.Request) (w : World) :
  (forall c, In c r -> http.Name c <> Name s) -> Get s r w = anonymous w.
Proof.
  intros H. unfold Get. rewrite (Request_Cookie_absent _ _ H). reflexivity.
Qed.

(** Past the envelope, [Get] is the decoder followed by the expiry test. *)
Lemma Get_decoded (s : Store) (r : http.Request) (w : World) (buf : list byte) :
  carries s r buf ->
  Get s r w =
    match UnmarshalBinary Session_zero buf with
    | (_, Some _) => anonymous w
    | (ss, None) =>
        if time.Time_Sub (now w) (Time ss) >? TTL s then anonymous w
        else Returned ss
    end.
Proof.
  intros (c & encrypted & Hc & Hd & Hlen & Hopen).
  unfold Get. rewrite Hc, Hd. unfold slice_to, slice_from.
  destruct (Nat.leb_spec 24 (cap encrypted)); [| lia].
  destruct (Nat.leb_spec 24 (len encrypted)); [| lia].
  unfold elems at 1 2. cbn [backing len].
  rewrite nonce_of_slice by exact Hlen.
  rewrite box_of_slice, Hopen. reflexivity.
Qed.

(** The slicing of a decoded cookie shorter than a nonce. *)
Lemma Get_short (s : Store) (r : http.Request) (w : World)
      (c : http.Cookie) (encrypted : Slice) :
  http.Request_Cookie r (Name s) = (Some c, None) ->
  base64_DecodeString (http.Value c) = (encrypted, None) ->
  (len encrypted < 24)%nat ->
  Get s r w = Panicked (SliceBounds 24 (if (24 <=? cap encrypted)%nat
                                        then len encrypted else cap encrypted)).
Proof.
  intros Hc Hd Hlen. unfold Get. rewrite Hc, Hd. unfold slice_to, slice_from.
  destruct (Nat.leb_spec 24 (cap encrypted)); [| reflexivity].
  destruct (Nat.leb_spec 24 (len encrypted)); [lia | reflexivity].
Qed.

End GetProperties.

(** C7. On a request with no cookie of the store's name, and with the 16
    random bytes of an identifier at hand, [Get] returns a session with
    [Valid = false], the zero time, a nil [UID] and [RealUID], no [State], and
    as [SID] the identifier the generator has just made from those bytes,
    which has 128 bits and is not the nil identifier. *)
Theorem Get_without_cookie {collab : Collaborators}
        (s : Store) (r : http.Request) (w : World) :
  (forall c, In c r -> http.Name c <> Name s) ->
  (16 <= length (rand w))%nat ->
  exists u : uuid.UUID,
    Get s r w = Returned {| Valid := false; Time := time.zero; SID := u;
                            UID := uuid.Nil; RealUID := uuid.Nil; State := [] |} /\
    uuid.NewV4 (rand w) = (u, None) /\
    uuid.wf u /\ u <> uuid.Nil.
Proof.
  intros Habsent Hrand. rewrite Get_no_cookie by exact Habsent.
  apply anonymous_returns. exact Hrand.
Qed.

Lemma Get_without_cookie_witness :
  (forall c, In c [http.sent "other" "AAAA"] -> http.Name c <> Name Example.store) /\
  (16 <= length Example.entropy)%nat /\
  exists u : uuid.UUID,
    Get (collab := Reference.collaborators) Example.store
        [http.sent "other" "AAAA"] (mkWorld Example.t_soon Example.entropy)
    = Returned {| Valid := false; Time := time.zero; SID := u;
                  UID := uuid.Nil; RealUID := uuid.Nil; State := [] |} /\
    uuid.NewV4 Example.entropy = (u, None) /\
    uuid.wf u /\ u <> uuid.Nil.
Proof.
  assert (Habsent : forall c, In c [http.sent "other" "AAAA"] ->
                              http.Name c <> Name Example.store).
  { intros c [<-|[]]. cbn. discriminate. }
  assert (Hrand : (16 <= length Example.entropy)%nat) by (vm_compute; lia).
  split; [exact Habsent |]. split; [exact Hrand |].
  exact (Get_without_cookie (collab := Reference.collaborators) Example.store
           [http.sent "other" "AAAA"] (mkWorld Example.t_soon Example.entropy)
           Habsent Hrand).
Defined.

(** C2. A cookie value can be valid base64 of fewer than 24 bytes: ["AAAA"]
    decodes, without error, to three bytes in a buffer of capacity three.
    [Get] then slices past the capacity and panics, whatever the clock and
    the random reader; it returns no session. *)
Theorem Get_panics_on_short_cookie (w : World) :
  Reference.DecodeString "AAAA" = (mkSlice [x00; x00; x00] 3, None) /\
  Get (collab := Reference.collaborators) Example.store
      [http.sent "session" "AAAA"] w
  = Panicked (SliceBounds 24 3).
Proof.
  split; [reflexivity |].
  rewrite (Get_short (collab := Reference.collaborators) Example.store
             [http.sent "session" "AAAA"] w (http.sent "session" "AAAA")
             (mkSlice [x00; x00; x00] 3)).
  - reflexivity.
  - reflexivity.
  - reflexivity.
  - cbn [len]. lia.
Qed.

(** ** Expiry *)

(** An instant written as Unix seconds and read back is the instant cut to
    whole seconds. *)
Lemma Unix_Time_Unix_truncates (t : time.Time) :
  - 2 ^ 63 <= time.sec t < 2 ^ 63 ->
  time.Unix (time.Time_Unix t) 0 = time.mkTime (time.sec t) 0.
Proof.
  intros H. rewrite Unix_whole. unfold time.Time_Unix.
  rewrite int64_add_int64_l. f_equal.
  unfold time.internalToUnix. rewrite <- (int64_small (time.sec t)) at 2 by exact H.
  f_equal. lia.
Qed.

(** Cutting the earlier instant to whole seconds can only lengthen the time
    elapsed since. *)
Lemma Time_Sub_truncated (t u : time.Time) :
  time.wf u ->
  time.Time_Sub t u <= time.Time_Sub t (time.Unix (time.Time_Unix u) 0).
Proof.
  intros [Hsec Hnsec]. rewrite Unix_Time_Unix_truncates by exact Hsec.
  unfold time.Time_Sub, time.maxDuration, time.minDuration. cbn [time.sec time.nsec].
  rewrite !Z.gtb_ltb.
  repeat match goal with
         | |- context [?a <? ?b] => destruct (Z.ltb_spec a b)
         end; lia.
Qed.

(** The elapsed time never exceeds the largest duration. *)
Lemma Time_Sub_le_max (t u : time.Time) : time.Time_Sub t u <= time.maxDuration.
Proof.
  unfold time.Time_Sub, time.maxDuration, time.minDuration.
  rewrite Z.gtb_ltb.
  repeat match goal with
         | |- context [?a <? ?b] => destruct (Z.ltb_spec a b)
         end; lia.
Qed.

(** Below the largest duration, comparing with the saturated elapsed time is
    comparing with the exact one. *)
Lemma TTL_ltb_Time_Sub (ttl : time.Duration) (t u : time.Time) :
  time.minDuration <= ttl < time.maxDuration ->
  (ttl <? time.Time_Sub t u)
  = (ttl <? (time.sec t - time.sec u) * time.Second + (time.nsec t - time.nsec u)).
Proof.
  unfold time.Time_Sub, time.maxDuration, time.minDuration. intros Httl.
  rewrite !Z.gtb_ltb.
  set (d := (time.sec t - time.sec u) * time.Second + (time.nsec t - time.nsec u)).
  destruct (Z.ltb_spec (2 ^ 63 - 1) d); destruct (Z.ltb_spec d (- 2 ^ 63));
    repeat match goal with
           | |- context [?a <? ?b] => destruct (Z.ltb_spec a b)
           end; try reflexivity; lia.
Qed.

(** The cookie [Save] wrote at [Example.t_save], sent back. *)
Lemma Example_carries :
  carries (collab := Reference.collaborators) Example.store
          (Example.echo Example.saved_cookies)
          (fst (MarshalBinary (snd Example.saved))).
Proof.
  eexists _, _. split; [lazy; reflexivity |].
  split; [lazy; reflexivity |].
  split; [cbn [len cap backing length]; lia |].
  lazy. reflexivity.
Qed.

(** The same cookie, for the store that never expires. *)
Lemma Example_carries_forever :
  carries (collab := Reference.collaborators) Example.forever
          (Example.echo Example.saved_cookies)
          (fst (MarshalBinary (snd Example.saved))).
Proof.
  eexists _, _. split; [lazy; reflexivity |].
  split; [lazy; reflexivity |].
  split; [cbn [len cap backing length]; lia |].
  lazy. reflexivity.
Qed.

(** C4, as the code has it.  Let a request carry the encoding of a session
    that [Save] stamped with [Time saved], and let [elapsed] be what [Get]
    computes: the duration, saturating at the largest and the smallest
    [Duration], from that instant cut to whole seconds (all the cookie
    records) to now.  If [elapsed] exceeds the TTL, [Get] answers as for a
    missing cookie: with a fresh anonymous session whose [SID] comes from the
    generator.  If [elapsed] is at most the TTL, [Get] returns the decoded
    session: the saved identifiers and state, [Valid = true], and the save
    time cut to whole seconds.  Hence, for a TTL below the largest duration,
    a read strictly later than the TTL after the save time itself, nanoseconds
    included, finds the session expired; and for a TTL equal to the largest
    duration no read finds it expired. *)
Theorem Get_expiry {collab : Collaborators}
        (s : Store) (r : http.Request) (w : World) (saved : Session) :
  uuid.wf (SID saved) -> uuid.wf (UID saved) -> uuid.wf (RealUID saved) ->
  carries s r (fst (MarshalBinary saved)) ->
  (TTL s < time.Time_Sub (now w) (time.Unix (time.Time_Unix (Time saved)) 0) ->
   Get s r w = anonymous w /\
   ((16 <= length (rand w))%nat ->
    exists u : uuid.UUID,
      Get s r w = Returned {| Valid := false; Time := time.zero; SID := u;
                              UID := uuid.Nil; RealUID := uuid.Nil; State := [] |} /\
      uuid.NewV4 (rand w) = (u, None))) /\
  (time.Time_Sub (now w) (time.Unix (time.Time_Unix (Time saved)) 0) <= TTL s ->
   Get s r w = Returned {| Valid := true;
                           Time := time.Unix (time.Time_Unix (Time saved)) 0;
                           SID := SID saved; UID := UID saved;
                           RealUID := RealUID saved; State := State saved |}) /\
  (time.wf (Time saved) ->
   TTL s < time.Time_Sub (now w) (Time saved) ->
   Get s r w = anonymous w) /\
  (time.wf (Time saved) ->
   time.minDuration <= TTL s < time.maxDuration ->
   TTL s < (time.sec (now w) - time.sec (Time saved)) * time.Second
           + (time.nsec (now w) - time.nsec (Time saved)) ->
   Get s r w = anonymous w) /\
  (TTL s = time.maxDuration ->
   Get s r w = Returned {| Valid := true;
                           Time := time.Unix (time.Time_Unix (Time saved)) 0;
                           SID := SID saved; UID := UID saved;
                           RealUID := RealUID saved; State := State saved |}).
Proof.
  intros Hsid Huid Hreal Hcarries.
  rewrite (Get_decoded s r w _ Hcarries).
  rewrite (UnmarshalBinary_MarshalBinary Session_zero saved Hsid Huid Hreal).
  cbn [Time]. rewrite Z.gtb_ltb.
  pose proof (Time_Sub_le_max (now w) (time.Unix (time.Time_Unix (Time saved)) 0))
    as Hmax.
  destruct (Z.ltb_spec (TTL s)
              (time.Time_Sub (now w) (time.Unix (time.Time_Unix (Time saved)) 0)))
    as [Hlt|Hle].
  - split; [| split; [lia | split; [reflexivity | split; [reflexivity | lia]]]].
    intros _. split; [reflexivity |].
    intros Hrand. destruct (anonymous_returns w Hrand) as (u & Hu & Hnew & _).
    exists u. auto.
  - split; [lia |]. split; [reflexivity |].
    split; [| split; [| reflexivity]].
    + intros Hwf Hlate.
      pose proof (Time_Sub_truncated (now w) (Time saved) Hwf). lia.
    + intros Hwf Httl Hlate.
      pose proof (Time_Sub_truncated (now w) (Time saved) Hwf) as Htrunc.
      pose proof (TTL_ltb_Time_Sub (TTL s) (now w) (Time saved) Httl) as Hexact.
      apply Z.ltb_lt in Hlate. rewrite <- Hexact in Hlate.
      apply Z.ltb_lt in Hlate. lia.
Qed.

Lemma Get_expiry_witness :
  uuid.wf (SID (snd Example.saved)) /\ uuid.wf (UID (snd Example.saved)) /\
  uuid.wf (RealUID (snd Example.saved)) /\
  Get (collab := Reference.collaborators) Example.store
      (Example.echo Example.saved_cookies) (mkWorld Example.t_late Example.entropy)
  = anonymous (mkWorld Example.t_late Example.entropy) /\
  Get (collab := Reference.collaborators) Example.store
      (Example.echo Example.saved_cookies) (mkWorld Example.t_edge Example.entropy)
  = Returned {| Valid := true;
                Time := time.mkTime (time.unixToInternal + 100) 0;
                SID := SID Example.session; UID := UID Example.session;
                RealUID := RealUID Example.session;
                State := State Example.session |} /\
  (time.wf Example.t_save /\
   time.minDuration <= TTL Example.store < time.maxDuration /\
   TTL Example.store
   < (time.sec Example.t_late - time.sec Example.t_save) * time.Second
     + (time.nsec Example.t_late - time.nsec Example.t_save)) /\
  TTL Example.forever = time.maxDuration /\
  Get (collab := Reference.collaborators) Example.forever
      (Example.echo Example.saved_cookies) (mkWorld Example.t_far Example.entropy)
  = Returned {| Valid := true;
                Time := time.mkTime (time.unixToInternal + 100) 0;
                SID := SID Example.session; UID := UID Example.session;
                RealUID := RealUID Example.session;
                State := State Example.session |}.
Proof.
  assert (Hsid : uuid.wf (SID (snd Example.saved))) by reflexivity.
  assert (Huid : uuid.wf (UID (snd Example.saved))) by reflexivity.
  assert (Hreal : uuid.wf (RealUID (snd Example.saved))) by reflexivity.
  assert (Hwf : time.wf (Time (snd Example.saved)))
    by (vm_compute; repeat split; discriminate).
  assert (Httl : time.minDuration <= TTL Example.store < time.maxDuration)
    by (vm_compute; split; [discriminate | reflexivity]).
  assert (Hlate : TTL Example.store
                  < (time.sec Example.t_late - time.sec (Time (snd Example.saved)))
                    * time.Second
                    + (time.nsec Example.t_late - time.nsec (Time (snd Example.saved))))
    by (vm_compute; reflexivity).
  split; [exact Hsid |]. split; [exact Huid |]. split; [exact Hreal |].
  destruct (Get_expiry (collab := Reference.collaborators) Example.store
              (Example.echo Example.saved_cookies)
              (mkWorld Example.t_late Example.entropy) (snd Example.saved)
              Hsid Huid Hreal Example_carries)
    as (_ & _ & _ & Hexact & _).
  destruct (Get_expiry (collab := Reference.collaborators) Example.store
              (Example.echo Example.saved_cookies)
              (mkWorld Example.t_edge Example.entropy) (snd Example.saved)
              Hsid Huid Hreal Example_carries)
    as (_ & Hvalid & _).
  destruct (Get_expiry (collab := Reference.collaborators) Example.forever
              (Example.echo Example.saved_cookies)
              (mkWorld Example.t_far Example.entropy) (snd Example.saved)
              Hsid Huid Hreal Example_carries_forever)
    as (_ & _ & _ & _ & Hforever).
  split; [exact (Hexact Hwf Httl Hlate) |].
  split; [apply Hvalid; vm_compute; discriminate |].
  split; [exact (conj Hwf (conj Httl Hlate)) |].
  split; [reflexivity |].
  exact (Hforever eq_refl).
Defined.

(** C4, as the specification has it, fails: saved at 100.9 s with a TTL of
    one second and read at 101.5 s, 0.6 s later and so before the TTL has
    passed, the cookie is already expired, because the 1.5 s since the
    recorded second 100 exceed the TTL. *)
Lemma Get_expiry_counterexample :
  fst (fst Example.saved) = None /\
  Time (snd Example.saved) = Example.t_save /\
  carries (collab := Reference.collaborators) Example.store
          (Example.echo Example.saved_cookies)
          (fst (MarshalBinary (snd Example.saved))) /\
  time.Time_Sub Example.t_soon Example.t_save = 600000000 /\
  time.Time_Sub Example.t_soon Example.t_save <= TTL Example.store /\
  exists anon : Session,
    Get (collab := Reference.collaborators) Example.store
        (Example.echo Example.saved_cookies) (mkWorld Example.t_soon Example.entropy)
    = Returned anon /\
    Valid anon = false /\ SID anon <> SID Example.session.
Proof.
  split; [reflexivity |]. split; [reflexivity |].
  split; [exact Example_carries |].
  split; [reflexivity |]. split; [vm_compute; discriminate |].
  eexists. split; [vm_compute; reflexivity |].
  split; [reflexivity |]. cbn [SID]. discriminate.
Qed.

(** ** Save *)

Lemma ReadFull_fails_iff (r : list byte) (n : nat) :
  snd (fst (io.ReadFull r n)) <> None <-> (length r < n)%nat.
Proof.
  unfold io.ReadFull. destruct (Nat.leb_spec n (length r)) as [Hle|Hlt].
  - cbn [fst snd]. split; [congruence | lia].
  - destruct r; cbn [fst snd]; split; intros; [exact Hlt | discriminate
                                                | exact Hlt | discriminate].
Qed.

Section SaveProperties.
Context {collab : Collaborators}.

Lemma Save_with_nonce (s : Store) (rw : http.ResponseWriter) (ss : Session) (w : World) :
  (24 <= length (rand w))%nat ->
  Save s rw ss w =
    (None,
     http.SetCookie rw
       {| http.Path := "/";
          http.HttpOnly := HttpOnly s;
          http.Secure := Secure s;
          http.Name := Name s;
          http.Expires := time.Time_Add (now w) (TTL s);
          http.MaxAge := Z.quot (TTL s) time.Second;
          http.Value :=
            base64_EncodeToString
              (secretbox_Seal (firstn 24 (rand w))
                              (fst (MarshalBinary (stamped ss w)))
                              (firstn 24 (rand w)) (Key s)) |},
     stamped ss w).
Proof.
  intros H. unfold Save, io.ReadFull.
  destruct (Nat.leb_spec 24 (length (rand w))); [reflexivity | lia].
Qed.

Lemma Save_without_nonce (s : Store) (rw : http.ResponseWriter) (ss : Session) (w : World) :
  (length (rand w) < 24)%nat ->
  exists msg : string, Save s rw ss w = (Some (ErrNew msg), rw, ss).
Proof.
  intros H. unfold Save, io.ReadFull.
  destruct (Nat.leb_spec 24 (length (rand w))); [lia |].
  destruct (rand w); eexists; reflexivity.
Qed.

(** What [Save] writes, [Get] can read, as far as base64 and the box undo
    themselves on this cookie. *)
Lemma Save_then_carries (s : Store) (rw : http.ResponseWriter) (ss : Session)
      (w : World) (encrypted : Slice) :
  (24 <= length (rand w))%nat ->
  let buf := fst (MarshalBinary (stamped ss w)) in
  let sealed := secretbox_Seal (firstn 24 (rand w)) buf (firstn 24 (rand w)) (Key s) in
  base64_DecodeString (base64_EncodeToString sealed) = (encrypted, None) ->
  elems encrypted = sealed ->
  (24 <= len encrypted <= cap encrypted)%nat ->
  secretbox_Open [] (skipn 24 sealed) (firstn 24 sealed) (Key s) = (buf, true) ->
  exists c : http.Cookie,
    Save s rw ss w = (None, rw ++ [c], stamped ss w) /\
    carries s [http.sent (http.Name c) (http.Value c)] buf.
Proof.
  intros Hrand buf sealed Hdec Helems Hlen Hopen.
  eexists. split; [apply Save_with_nonce; exact Hrand |].
  cbn [http.Name http.Value].
  exists (http.sent (Name s) (base64_EncodeToString sealed)), encrypted.
  split; [apply Request_Cookie_sent |].
  split; [exact Hdec |]. split; [exact Hlen |].
  rewrite Helems. exact Hopen.
Qed.

End SaveProperties.

(** C5. [Save] returns an error exactly when the 24 bytes of the nonce
    cannot be read from the random reader.  Then the response writer is as it
    was: no cookie is set.  Otherwise [Save] returns no error and has set one
    more cookie, of the store's name, whose value is the base64 of the box
    sealed under the nonce read. *)
Theorem Save_fails_iff_no_nonce {collab : Collaborators}
        (s : Store) (rw : http.ResponseWriter) (ss : Session) (w : World) :
  (fst (fst (Save s rw ss w)) <> None
   <-> snd (fst (io.ReadFull (rand w) 24)) <> None) /\
  (fst (fst (Save s rw ss w)) <> None -> snd (fst (Save s rw ss w)) = rw) /\
  (fst (fst (Save s rw ss w)) = None ->
   exists c : http.Cookie,
     snd (fst (Save s rw ss w)) = http.SetCookie rw c /\
     http.Name c = Name s /\
     http.Value c =
       base64_EncodeToString
         (secretbox_Seal (fst (fst (io.ReadFull (rand w) 24)))
                         (fst (MarshalBinary (snd (Save s rw ss w))))
                         (fst (fst (io.ReadFull (rand w) 24))) (Key s))).
Proof.
  rewrite ReadFull_fails_iff.
  destruct (Nat.lt_ge_cases (length (rand w)) 24) as [Hlt|Hge].
  - destruct (Save_without_nonce s rw ss w Hlt) as (msg & Hsave).
    rewrite Hsave. cbn [fst snd].
    split; [split; [intros _; exact Hlt | discriminate] |].
    split; [reflexivity | discriminate].
  - rewrite (Save_with_nonce s rw ss w Hge). cbn [fst snd].
    split; [split; [congruence | lia] |].
    split; [congruence |]. intros _.
    eexists. split; [reflexivity |]. cbn [http.Name http.Value].
    split; [reflexivity |].
    unfold io.ReadFull. destruct (Nat.leb_spec 24 (length (rand w))); [| lia].
    reflexivity.
Qed.

Lemma Save_fails_iff_no_nonce_witness :
  fst (fst (Save (collab := Reference.collaborators) Example.store []
                 Example.session (mkWorld Example.t_save Example.exhausted))) <> None /\
  snd (fst (Save (collab := Reference.collaborators) Example.store []
                 Example.session (mkWorld Example.t_save Example.exhausted))) = [] /\
  exists c : http.Cookie,
    Example.saved_cookies = [c] /\ http.Name c = "session"%string.
Proof.
  pose proof (Save_fails_iff_no_nonce (collab := Reference.collaborators)
                Example.store [] Example.session
                (mkWorld Example.t_save Example.exhausted)) as (Hiff & Hkeep & _).
  pose proof (Save_fails_iff_no_nonce (collab := Reference.collaborators)
                Example.store [] Example.session
                (mkWorld Example.t_save Example.entropy)) as (_ & _ & Hset).
  assert (Hfail : fst (fst (Save (collab := Reference.collaborators) Example.store []
                              Example.session
                              (mkWorld Example.t_save Example.exhausted))) <> None).
  { apply Hiff. vm_compute. discriminate. }
  split; [exact Hfail |]. split; [exact (Hkeep Hfail) |].
  destruct (Hset eq_refl) as (c & Hc & Hname & _).
  exists c. split; [exact Hc | exact Hname].
Defined.

(** C6. A successful [Save] leaves the session it was passed with [Time] set
    to the current time and with [Valid], [SID], [UID], [RealUID] and [State]
    as they were. *)
Theorem Save_changes_Time_only {collab : Collaborators}
        (s : Store) (rw : http.ResponseWriter) (ss : Session) (w : World) :
  fst (fst (Save s rw ss w)) = None ->
  snd (Save s rw ss w) =
    {| Valid := Valid ss; Time := now w; SID := SID ss; UID := UID ss;
       RealUID := RealUID ss; State := State ss |}.
Proof.
  destruct (Nat.lt_ge_cases (length (rand w)) 24) as [Hlt|Hge].
  - destruct (Save_without_nonce s rw ss w Hlt) as (msg & Hsave).
    rewrite Hsave. discriminate.
  - rewrite (Save_with_nonce s rw ss w Hge). reflexivity.
Qed.

Lemma Save_changes_Time_only_witness :
  fst (fst Example.saved) = None /\
  snd Example.saved =
    {| Valid := true; Time := Example.t_save;
       SID := SID Example.session; UID := UID Example.session;
       RealUID := RealUID Example.session; State := State Example.session |}.
Proof.
  split; [reflexivity |].
  apply (Save_changes_Time_only (collab := Reference.collaborators)
           Example.store [] Example.session (mkWorld Example.t_save Example.entropy)).
  reflexivity.
Defined.

(** ** Clear *)

(** C8. For every store and whatever was set before, [Clear] sets one more
    cookie: of the store's name, with path ["/"], the store's [HttpOnly] and
    [Secure] flags, the empty value, [Expires] at the Unix epoch and
    [MaxAge = -1].  [Clear] is a total function of the store and the response
    writer alone: it takes no key, nonce or collaborator and has no error or
    panic to return. *)
Theorem Clear_sets_expired_cookie (s : Store) (rw : http.ResponseWriter) :
  exists c : http.Cookie,
    Clear s rw = rw ++ [c] /\
    http.Name c = Name s /\
    http.Path c = "/"%string /\
    http.HttpOnly c = HttpOnly s /\
    http.Secure c = Secure s /\
    http.Value c = ""%string /\
    http.Expires c = time.Unix 0 0 /\
    time.Time_Unix (http.Expires c) = 0 /\
    time.nsec (http.Expires c) = 0 /\
    http.MaxAge c = -1.
Proof.
  eexists. split; [reflexivity |]. cbn. repeat split.
Qed.

(** * Further properties of the codec *)

Lemma byte_of_Z_eq (z : Z) (b : byte) : z mod 256 = byte_to_Z b -> byte_of_Z z = b.
Proof.
  intros H. rewrite <- (byte_of_to_Z b). unfold byte_of_Z.
  rewrite H, (Z.mod_small (byte_to_Z b)) by apply byte_to_Z_range. reflexivity.
Qed.

Lemma uint64_int64 (z : Z) : uint64 (int64 z) = uint64 z.
Proof. unfold uint64. apply int64_mod. Qed.

Lemma int64_Time_Unix (t : time.Time) : int64 (time.Time_Unix t) = time.Time_Unix t.
Proof. unfold time.Time_Unix. apply int64_idem. Qed.

(** Writing the eight bytes read gives them back. *)
Lemma PutUint64_Uint64 (data : list byte) :
  (8 <= length data)%nat ->
  0 <= binary.Uint64 data < 2 ^ 64 /\
  binary.PutUint64 (repeat x00 8) (binary.Uint64 data) = firstn 8 data.
Proof.
  intros H. rewrite Uint64_big_endian by exact H.
  destruct data as [|b0 [|b1 [|b2 [|b3 [|b4 [|b5 [|b6 [|b7 data]]]]]]]];
    cbn [length] in H; try lia.
  cbn [firstn big_endian]. unfold binary.PutUint64. cbn [repeat skipn app].
  pose proof (byte_to_Z_range b0). pose proof (byte_to_Z_range b1).
  pose proof (byte_to_Z_range b2). pose proof (byte_to_Z_range b3).
  pose proof (byte_to_Z_range b4). pose proof (byte_to_Z_range b5).
  pose proof (byte_to_Z_range b6). pose proof (byte_to_Z_range b7).
  split; [lia |].
  rewrite !Z.shiftr_div_pow2 by lia.
  repeat (f_equal; [apply byte_of_Z_eq; Z.div_mod_to_equations; lia |]).
  f_equal. apply byte_of_Z_eq. Z.div_mod_to_equations. lia.
Qed.

Lemma sub_skipn_join (data : list byte) (lo hi : nat) :
  (lo <= hi)%nat -> sub data lo hi ++ skipn hi data = skipn lo data.
Proof.
  intros H. unfold sub.
  replace hi with ((hi - lo) + lo)%nat at 2 by lia.
  rewrite <- skipn_skipn. apply firstn_skipn.
Qed.

Lemma length_MarshalBinary (s : Session) :
  length (fst (MarshalBinary s))
  = (8 + length (SID s) + length (UID s) + length (RealUID s) + length (State s))%nat.
Proof.
  unfold MarshalBinary. cbn [fst]. rewrite !length_app, length_PutUint64. lia.
Qed.

(** X1. The layout [MarshalBinary] writes, for 128-bit identifiers: 56 bytes
    and the state; the Unix second as an unsigned 64-bit number, most
    significant byte first, in bytes 0..7; [SID], [UID] and [RealUID] in bytes
    8..23, 24..39 and 40..55; [State] from byte 56 on, with no length
    prefix. *)
Theorem MarshalBinary_layout (s : Session) :
  uuid.wf (SID s) -> uuid.wf (UID s) -> uuid.wf (RealUID s) ->
  length (fst (MarshalBinary s)) = (56 + length (State s))%nat /\
  big_endian 0 (firstn 8 (fst (MarshalBinary s))) = uint64 (time.Time_Unix (Time s)) /\
  sub (fst (MarshalBinary s)) 8 24 = SID s /\
  sub (fst (MarshalBinary s)) 24 40 = UID s /\
  sub (fst (MarshalBinary s)) 40 56 = RealUID s /\
  skipn 56 (fst (MarshalBinary s)) = State s.
Proof.
  unfold uuid.wf, uuid.Size. intros Hsid Huid Hreal.
  split; [rewrite length_MarshalBinary; lia |].
  split.
  - rewrite <- Uint64_big_endian by (rewrite length_MarshalBinary; lia).
    unfold MarshalBinary. cbn [fst]. rewrite <- !app_assoc.
    rewrite Uint64_PutUint64. apply uint64_idem.
  - unfold MarshalBinary. cbn [fst].
    set (p := binary.PutUint64 (repeat x00 8) (uint64 (time.Time_Unix (Time s)))).
    assert (Hp : length p = 8%nat) by apply length_PutUint64.
    rewrite <- !app_assoc.
    split; [apply sub_app; lia |].
    split; [rewrite (app_assoc p); apply sub_app; rewrite ?length_app; lia |].
    split.
    + rewrite (app_assoc p), (app_assoc (p ++ SID s)).
      apply sub_app; rewrite ?length_app; lia.
    + rewrite (app_assoc p), (app_assoc (p ++ SID s)),
        (app_assoc ((p ++ SID s) ++ UID s)).
      apply skipn_app_exact. rewrite !length_app. lia.
Qed.

Lemma MarshalBinary_layout_witness :
  uuid.wf (SID Example.session) /\ uuid.wf (UID Example.session) /\
  uuid.wf (RealUID Example.session) /\
  length (fst (MarshalBinary Example.session)) = 58%nat /\
  big_endian 0 (firstn 8 (fst (MarshalBinary Example.session))) = 7 /\
  skipn 56 (fst (MarshalBinary Example.session)) = [x61; x62].
Proof.
  assert (Hsid : uuid.wf (SID Example.session)) by reflexivity.
  assert (Huid : uuid.wf (UID Example.session)) by reflexivity.
  assert (Hreal : uuid.wf (RealUID Example.session)) by reflexivity.
  destruct (MarshalBinary_layout Example.session Hsid Huid Hreal)
    as (Hlen & Hsec & _ & _ & _ & Hstate).
  split; [exact Hsid |]. split; [exact Huid |]. split; [exact Hreal |].
  split; [exact Hlen |]. split; [exact Hsec | exact Hstate].
Defined.

(** X2. Encoding undoes decoding: for every input of at least 56 bytes,
    encoding the session decoded from it gives the input back, byte for
    byte.  With C1, the codec is a one-to-one correspondence between the
    byte strings of 56 bytes or more and the sessions it can produce. *)
Theorem MarshalBinary_UnmarshalBinary (s : Session) (data : list byte) :
  (56 <= length data)%nat ->
  MarshalBinary (fst (UnmarshalBinary s data)) = (data, None).
Proof.
  intros H. rewrite UnmarshalBinary_long by exact H.
  unfold MarshalBinary. cbn [fst Time SID UID RealUID State].
  rewrite Time_Unix_Unix, int64_idem, uint64_int64.
  destruct (PutUint64_Uint64 data) as [Hrange Hput]; [lia |].
  unfold uint64. rewrite Z.mod_small by exact Hrange. rewrite Hput.
  f_equal. rewrite <- !app_assoc.
  rewrite (sub_skipn_join data 40 56) by lia.
  rewrite (sub_skipn_join data 24 40) by lia.
  rewrite (sub_skipn_join data 8 24) by lia.
  apply firstn_skipn.
Qed.

Lemma MarshalBinary_UnmarshalBinary_witness :
  (56 <= length (repeat xa5 60))%nat /\
  MarshalBinary (fst (UnmarshalBinary Example.session (repeat xa5 60)))
  = (repeat xa5 60, None).
Proof.
  assert (H : (56 <= length (repeat xa5 60))%nat) by (vm_compute; lia).
  split; [exact H |].
  exact (MarshalBinary_UnmarshalBinary Example.session (repeat xa5 60) H).
Defined.

(** X3. What the encoding keeps apart: two sessions with 128-bit identifiers
    have the same encoding exactly when they agree on the Unix second, on
    [SID], [UID], [RealUID] and on [State].  [Valid] and the nanoseconds are
    not encoded. *)
Theorem MarshalBinary_eq_iff (s1 s2 : Session) :
  uuid.wf (SID s1) -> uuid.wf (UID s1) -> uuid.wf (RealUID s1) ->
  uuid.wf (SID s2) -> uuid.wf (UID s2) -> uuid.wf (RealUID s2) ->
  (fst (MarshalBinary s1) = fst (MarshalBinary s2)
   <-> time.Time_Unix (Time s1) = time.Time_Unix (Time s2) /\
       SID s1 = SID s2 /\ UID s1 = UID s2 /\ RealUID s1 = RealUID s2 /\
       State s1 = State s2).
Proof.
  intros H1 H2 H3 H4 H5 H6. split.
  - intros Heq.
    pose proof (UnmarshalBinary_MarshalBinary Session_zero s1 H1 H2 H3) as D1.
    pose proof (UnmarshalBinary_MarshalBinary Session_zero s2 H4 H5 H6) as D2.
    rewrite Heq, D2 in D1.
    pose proof (f_equal (fun p => time.Time_Unix (Time (fst p))) D1) as Ht.
    pose proof (f_equal (fun p => SID (fst p)) D1) as Hsid.
    pose proof (f_equal (fun p => UID (fst p)) D1) as Huid.
    pose proof (f_equal (fun p => RealUID (fst p)) D1) as Hreal.
    pose proof (f_equal (fun p => State (fst p)) D1) as Hstate.
    cbn [fst Time SID UID RealUID State] in Ht, Hsid, Huid, Hreal, Hstate.
    rewrite !Time_Unix_Unix, !int64_Time_Unix in Ht. auto.
  - intros (Ht & Hsid & Huid & Hreal & Hstate).
    unfold MarshalBinary. cbn [fst].
    rewrite Ht, Hsid, Huid, Hreal, Hstate. reflexivity.
Qed.

Lemma MarshalBinary_eq_iff_witness :
  fst (MarshalBinary Example.session)
  = fst (MarshalBinary
           {| Valid := false;
              Time := time.mkTime (time.unixToInternal + 7) 999999999;
              SID := SID Example.session; UID := UID Example.session;
              RealUID := RealUID Example.session;
              State := State Example.session |}).
Proof.
  apply (MarshalBinary_eq_iff Example.session
           {| Valid := false;
              Time := time.mkTime (time.unixToInternal + 7) 999999999;
              SID := SID Example.session; UID := UID Example.session;
              RealUID := RealUID Example.session;
              State := State Example.session |});
    try reflexivity.
  repeat split.
Defined.

(** * Further properties of the store *)

Lemma UnmarshalBinary_Valid (s ss : Session) (data : list byte) :
  UnmarshalBinary s data = (ss, None) -> Valid ss = true.
Proof.
  intros H. destruct (Nat.lt_ge_cases (length data) 56) as [Hlt|Hge].
  - rewrite UnmarshalBinary_short in H by exact Hlt. discriminate H.
  - rewrite UnmarshalBinary_long in H by exact Hge. injection H as <-. reflexivity.
Qed.

Lemma UnmarshalBinary_error_short (s ss : Session) (data : list byte) (e : error) :
  UnmarshalBinary s data = (ss, Some e) -> (length data < 56)%nat.
Proof.
  intros H. destruct (Nat.lt_ge_cases (length data) 56) as [Hlt|Hge].
  - exact Hlt.
  - rewrite UnmarshalBinary_long in H by exact Hge. discriminate H.
Qed.

(** The two outcomes of an early return of [Get]. *)
Lemma anonymous_cases (w : World) :
  (exists e : error, anonymous w = Panicked (MustFailed e) /\
                     (length (rand w) < 16)%nat) \/
  (exists u : uuid.UUID,
      anonymous w = Returned {| Valid := false; Time := time.zero; SID := u;
                                UID := uuid.Nil; RealUID := uuid.Nil; State := [] |} /\
      uuid.NewV4 (rand w) = (u, None) /\ uuid.wf u /\ u <> uuid.Nil).
Proof.
  destruct (Nat.lt_ge_cases (length (rand w)) 16) as [Hlt|Hge].
  - left. destruct (anonymous_panics w Hlt) as (e & He). exists e. auto.
  - right. apply anonymous_returns. exact Hge.
Qed.

Lemma Reference_DecodeString_wf (v : string) :
  Slice_wf (fst (Reference.DecodeString v)).
Proof.
  unfold Reference.DecodeString, Slice_wf, cap.
  destruct (Reference.decode _ 0) as [out err]. cbn [fst len backing].
  rewrite length_app. lia.
Qed.

Section GetCases.
Context {collab : Collaborators}.

(** Every run of [Get] is an early return, a slicing panic on a decoded
    cookie, or the return of a decoded session within its TTL. *)
Lemma Get_cases (s : Store) (r : http.Request) (w : World) :
  Get s r w = anonymous w \/
  (exists (c : http.Cookie) (encrypted : Slice),
      http.Request_Cookie r (Name s) = (Some c, None) /\
      base64_DecodeString (http.Value c) = (encrypted, None) /\
      ((cap encrypted < 24)%nat \/ (len encrypted < 24)%nat) /\
      exists limit : nat, Get s r w = Panicked (SliceBounds 24 limit)) \/
  (exists (c : http.Cookie) (encrypted : Slice) (buf : list byte) (ss : Session),
      http.Request_Cookie r (Name s) = (Some c, None) /\
      base64_DecodeString (http.Value c) = (encrypted, None) /\
      (24 <= cap encrypted)%nat /\ (24 <= len encrypted)%nat /\
      secretbox_Open [] (firstn (len encrypted - 24) (skipn 24 (backing encrypted)))
                     (copy (repeat x00 24) (firstn 24 (backing encrypted)))
                     (Key s) = (buf, true) /\
      UnmarshalBinary Session_zero buf = (ss, None) /\
      time.Time_Sub (now w) (Time ss) <= TTL s /\
      Get s r w = Returned ss).
Proof.
  unfold Get.
  destruct (http.Request_Cookie r (Name s)) as [[c|] [e|]] eqn:Hc; auto.
  destruct (base64_DecodeString (http.Value c)) as [encrypted [e|]] eqn:Hd; auto.
  unfold slice_to, slice_from.
  destruct (Nat.leb_spec 24 (cap encrypted)) as [Hcap|Hcap].
  2:{ right. left. exists c, encrypted. eauto 6. }
  destruct (Nat.leb_spec 24 (len encrypted)) as [Hlen|Hlen].
  2:{ right. left. exists c, encrypted. eauto 6. }
  unfold elems at 1 2. cbn [backing len].
  destruct (secretbox_Open _ _ _ _) as [buf [|]] eqn:Hopen; auto.
  destruct (UnmarshalBinary Session_zero buf) as [ss [e|]] eqn:Hdec; auto.
  rewrite Z.gtb_ltb.
  destruct (Z.ltb_spec (TTL s) (time.Time_Sub (now w) (Time ss))); auto.
  right. right. exists c, encrypted, buf, ss. auto 10.
Qed.

End GetCases.

(** X5. A session [Get] returns with [Valid = true] is authentic: the request
    carries a cookie of the store's name that opens under the store's key to
    a plaintext, the session is what [UnmarshalBinary] decodes from that
    plaintext, and no more than the TTL has elapsed since its [Time].  (The
    decoder's slices are taken to respect their capacity.) *)
Theorem Get_Valid_is_authentic {collab : Collaborators}
        (s : Store) (r : http.Request) (w : World) (ss : Session) :
  (forall v : string, Slice_wf (fst (base64_DecodeString v))) ->
  Get s r w = Returned ss ->
  Valid ss = true ->
  exists buf : list byte,
    carries s r buf /\
    UnmarshalBinary Session_zero buf = (ss, None) /\
    time.Time_Sub (now w) (Time ss) <= TTL s.
Proof.
  intros Hwf Hget Hvalid.
  destruct (Get_cases s r w) as [Hanon | [Hpanic | Hdecoded]].
  - rewrite Hanon in Hget.
    destruct (anonymous_cases w) as [(e & He & _) | (u & Hu & _)].
    + rewrite He in Hget. discriminate Hget.
    + rewrite Hu in Hget. injection Hget as <-. discriminate Hvalid.
  - destruct Hpanic as (c & encrypted & _ & _ & _ & limit & Hp).
    rewrite Hp in Hget. discriminate Hget.
  - destruct Hdecoded as (c & encrypted & buf & ss' & Hc & Hd & Hcap & Hlen
                          & Hopen & Hdec & Hfresh & Hret).
    rewrite Hret in Hget. injection Hget as ->.
    exists buf. split; [| split; assumption].
    exists c, encrypted. split; [exact Hc |]. split; [exact Hd |].
    assert (Hrange : (24 <= len encrypted <= cap encrypted)%nat).
    { pose proof (Hwf (http.Value c)) as Hs. rewrite Hd in Hs.
      unfold Slice_wf in Hs. cbn [fst] in Hs. lia. }
    split; [exact Hrange |].
    rewrite nonce_of_slice, box_of_slice in Hopen by exact Hrange.
    exact Hopen.
Qed.

Lemma Get_Valid_is_authentic_witness :
  exists buf : list byte,
    carries (collab := Reference.collaborators) Example.store
            (Example.echo Example.saved_cookies) buf /\
    UnmarshalBinary Session_zero buf
    = ({| Valid := true;
          Time := time.mkTime (time.unixToInternal + 100) 0;
          SID := SID Example.session; UID := UID Example.session;
          RealUID := RealUID Example.session;
          State := State Example.session |}, None) /\
    time.Time_Sub Example.t_edge (time.mkTime (time.unixToInternal + 100) 0)
    <= TTL Example.store.
Proof.
  apply (Get_Valid_is_authentic (collab := Reference.collaborators)
           Example.store (Example.echo Example.saved_cookies)
           (mkWorld Example.t_edge Example.entropy)).
  - exact Reference_DecodeString_wf.
  - vm_compute. reflexivity.
  - reflexivity.
Defined.

(** X6. A session [Get] returns with [Valid = false] holds nothing of the
    request: its time is the zero time, [UID] and [RealUID] are nil, [State]
    is empty, and [SID] is the identifier just generated from the random
    reader, which is not nil. *)
Theorem Get_invalid_is_fresh {collab : Collaborators}
        (s : Store) (r : http.Request) (w : World) (ss : Session) :
  Get s r w = Returned ss ->
  Valid ss = false ->
  exists u : uuid.UUID,
    ss = {| Valid := false; Time := time.zero; SID := u;
            UID := uuid.Nil; RealUID := uuid.Nil; State := [] |} /\
    uuid.NewV4 (rand w) = (u, None) /\ uuid.wf u /\ u <> uuid.Nil.
Proof.
  intros Hget Hinvalid.
  destruct (Get_cases s r w) as [Hanon | [Hpanic | Hdecoded]].
  - rewrite Hanon in Hget.
    destruct (anonymous_cases w) as [(e & He & _) | (u & Hu & Hrest)].
    + rewrite He in Hget. discriminate Hget.
    + rewrite Hu in Hget. injection Hget as <-. exists u. auto.
  - destruct Hpanic as (c & encrypted & _ & _ & _ & limit & Hp).
    rewrite Hp in Hget. discriminate Hget.
  - destruct Hdecoded as (c & encrypted & buf & ss' & _ & _ & _ & _ & _
                          & Hdec & _ & Hret).
    rewrite Hret in Hget. injection Hget as ->.
    apply UnmarshalBinary_Valid in Hdec. congruence.
Qed.

Lemma Get_invalid_is_fresh_witness :
  exists u : uuid.UUID,
    {| Valid := false; Time := time.zero;
       SID := fst (uuid.NewV4 Example.entropy);
       UID := uuid.Nil; RealUID := uuid.Nil; State := [] |}
    = {| Valid := false; Time := time.zero; SID := u;
         UID := uuid.Nil; RealUID := uuid.Nil; State := [] |} /\
    uuid.NewV4 Example.entropy = (u, None) /\ uuid.wf u /\ u <> uuid.Nil.
Proof.
  apply (Get_invalid_is_fresh (collab := Reference.collaborators)
           Example.store (Example.echo Example.saved_cookies)
           (mkWorld Example.t_late Example.entropy)).
  - vm_compute. reflexivity.
  - reflexivity.
Defined.

(** X7. [Get] panics on a slice bound exactly when the request has a cookie
    of the store's name whose value decodes, without error, to fewer than 24
    bytes.  (The decoder's slices are taken to respect their capacity.) *)
Theorem Get_slice_panic_iff {collab : Collaborators}
        (s : Store) (r : http.Request) (w : World) :
  (forall v : string, Slice_wf (fst (base64_DecodeString v))) ->
  ((exists high limit : nat, Get s r w = Panicked (SliceBounds high limit))
   <-> exists (c : http.Cookie) (encrypted : Slice),
         http.Request_Cookie r (Name s) = (Some c, None) /\
         base64_DecodeString (http.Value c) = (encrypted, None) /\
         (len encrypted < 24)%nat).
Proof.
  intros Hwf. split.
  - intros (high & limit & Hget).
    destruct (Get_cases s r w) as [Hanon | [Hpanic | Hdecoded]].
    + rewrite Hanon in Hget.
      destruct (anonymous_cases w) as [(e & He & _) | (u & Hu & _)].
      * rewrite He in Hget. discriminate Hget.
      * rewrite Hu in Hget. discriminate Hget.
    + destruct Hpanic as (c & encrypted & Hc & Hd & Hshort & _).
      exists c, encrypted. split; [exact Hc |]. split; [exact Hd |].
      pose proof (Hwf (http.Value c)) as Hs. rewrite Hd in Hs.
      unfold Slice_wf in Hs. cbn [fst] in Hs. lia.
    + destruct Hdecoded as (c & encrypted & buf & ss & _ & _ & _ & _ & _ & _ & _ & Hret).
      rewrite Hret in Hget. discriminate Hget.
  - intros (c & encrypted & Hc & Hd & Hlen).
    rewrite (Get_short s r w c encrypted Hc Hd Hlen). eauto.
Qed.

Lemma Get_slice_panic_iff_witness :
  exists high limit : nat,
    Get (collab := Reference.collaborators) Example.store
        [http.sent "session" ""] (mkWorld Example.t_soon Example.entropy)
    = Panicked (SliceBounds high limit).
Proof.
  apply (Get_slice_panic_iff (collab := Reference.collaborators) Example.store
           [http.sent "session" ""] (mkWorld Example.t_soon Example.entropy)
           Reference_DecodeString_wf).
  exists (http.sent "session" ""), (mkSlice [] 0).
  split; [reflexivity |]. split; [reflexivity |]. cbn [len]. lia.
Defined.

(** X8. When [Get] returns: with 16 bytes left in the random reader, and the
    cookie of the store's name, if there is one and it decodes, decoding to
    at least 24 bytes, [Get] returns a session. *)
Theorem Get_returns {collab : Collaborators}
        (s : Store) (r : http.Request) (w : World) :
  (16 <= length (rand w))%nat ->
  (forall (c : http.Cookie) (encrypted : Slice),
      http.Request_Cookie r (Name s) = (Some c, None) ->
      base64_DecodeString (http.Value c) = (encrypted, None) ->
      (24 <= len encrypted <= cap encrypted)%nat) ->
  exists ss : Session, Get s r w = Returned ss.
Proof.
  intros Hrand Hlong.
  destruct (Get_cases s r w) as [Hanon | [Hpanic | Hdecoded]].
  - destruct (anonymous_returns w Hrand) as (u & Hu & _).
    rewrite Hanon, Hu. eauto.
  - destruct Hpanic as (c & encrypted & Hc & Hd & Hshort & _).
    pose proof (Hlong c encrypted Hc Hd). lia.
  - destruct Hdecoded as (c & encrypted & buf & ss & _ & _ & _ & _ & _ & _ & _ & Hret).
    eauto.
Qed.

Lemma Get_returns_witness :
  exists ss : Session,
    Get (collab := Reference.collaborators) Example.store
        [http.sent "session" Example.forged]
        (mkWorld Example.t_soon Example.entropy) = Returned ss.
Proof.
  apply (Get_returns (collab := Reference.collaborators)).
  - vm_compute. lia.
  - intros c encrypted Hc Hd.
    injection Hc as <-. cbn [http.sent http.Value] in Hd.
    vm_compute in Hd. injection Hd as <-. cbn [len cap backing length]. lia.
Defined.

(** X9. A cookie that is present but bad is answered like a missing one.
    When the value is not base64, or the box does not open under the store's
    key, or it opens to fewer than 56 bytes, [Get] makes the early return of
    a fresh anonymous session: nothing tells the caller which check failed. *)
Theorem Get_degrades {collab : Collaborators}
        (s : Store) (r : http.Request) (w : World)
        (c : http.Cookie) (encrypted : Slice) (e : option error) :
  http.Request_Cookie r (Name s) = (Some c, None) ->
  base64_DecodeString (http.Value c) = (encrypted, e) ->
  (e <> None -> Get s r w = anonymous w) /\
  (e = None -> (24 <= len encrypted <= cap encrypted)%nat ->
   snd (secretbox_Open [] (skipn 24 (elems encrypted))
                       (firstn 24 (elems encrypted)) (Key s)) = false ->
   Get s r w = anonymous w) /\
  (e = None -> (24 <= len encrypted <= cap encrypted)%nat ->
   forall buf : list byte,
     secretbox_Open [] (skipn 24 (elems encrypted))
                    (firstn 24 (elems encrypted)) (Key s) = (buf, true) ->
     (length buf < 56)%nat ->
     Get s r w = anonymous w).
Proof.
  intros Hc Hd. split; [| split].
  - intros He. unfold Get. rewrite Hc, Hd.
    destruct e as [e|]; [reflexivity | congruence].
  - intros -> Hrange Hclosed. unfold Get. rewrite Hc, Hd.
    unfold slice_to, slice_from.
    destruct (Nat.leb_spec 24 (cap encrypted)); [| lia].
    destruct (Nat.leb_spec 24 (len encrypted)); [| lia].
    unfold elems at 1 2. cbn [backing len].
    rewrite nonce_of_slice, box_of_slice by exact Hrange.
    destruct (secretbox_Open _ _ _ _) as [buf ok]. cbn [snd] in Hclosed.
    rewrite Hclosed. reflexivity.
  - intros -> Hrange buf Hopen Hshort.
    rewrite (Get_decoded s r w buf).
    + rewrite UnmarshalBinary_short by exact Hshort. reflexivity.
    + exists c, encrypted. auto.
Qed.

Lemma Get_degrades_witness :
  Get (collab := Reference.collaborators) Example.store
      [http.sent "session" Example.not_base64]
      (mkWorld Example.t_soon Example.entropy)
  = anonymous (mkWorld Example.t_soon Example.entropy) /\
  Get (collab := Reference.collaborators) Example.store
      [http.sent "session" Example.forged]
      (mkWorld Example.t_soon Example.entropy)
  = anonymous (mkWorld Example.t_soon Example.entropy) /\
  Get (collab := Reference.collaborators) Example.store
      [http.sent "session" Example.sealed_short]
      (mkWorld Example.t_soon Example.entropy)
  = anonymous (mkWorld Example.t_soon Example.entropy).
Proof.
  split; [| split].
  - refine (proj1 (Get_degrades (collab := Reference.collaborators) Example.store
                     [http.sent "session" Example.not_base64]
                     (mkWorld Example.t_soon Example.entropy)
                     (http.sent "session" Example.not_base64)
                     (fst (Reference.DecodeString Example.not_base64))
                     (snd (Reference.DecodeString Example.not_base64))
                     eq_refl eq_refl) _).
    vm_compute. discriminate.
  - refine (proj1 (proj2 (Get_degrades (collab := Reference.collaborators)
                     Example.store
                     [http.sent "session" Example.forged]
                     (mkWorld Example.t_soon Example.entropy)
                     (http.sent "session" Example.forged)
                     (fst (Reference.DecodeString Example.forged))
                     (snd (Reference.DecodeString Example.forged))
                     eq_refl eq_refl)) _ _ _).
    + reflexivity.
    + vm_compute. lia.
    + vm_compute. reflexivity.
  - refine (proj2 (proj2 (Get_degrades (collab := Reference.collaborators)
                     Example.store
                     [http.sent "session" Example.sealed_short]
                     (mkWorld Example.t_soon Example.entropy)
                     (http.sent "session" Example.sealed_short)
                     (fst (Reference.DecodeString Example.sealed_short))
                     (snd (Reference.DecodeString Example.sealed_short))
                     eq_refl eq_refl)) _ _ [x01; x02] _ _).
    + reflexivity.
    + vm_compute. lia.
    + vm_compute. reflexivity.
    + vm_compute. lia.
Defined.

(** ** Saving, then reading *)

(** X10. What [Save] writes, [Get] reads.  Let [Save] run with 24 random
    bytes at hand, and let base64 and the box undo themselves on the cookie
    it writes.  Then [Save] sets one cookie, and [Get], on a request that
    sends it back no later than the TTL after the second it was saved in,
    returns the saved [SID], [UID], [RealUID] and [State] with the save time
    cut to whole seconds and with [Valid = true], whatever [Valid] was when
    the session was saved. *)
Theorem Save_then_Get {collab : Collaborators}
        (s : Store) (rw : http.ResponseWriter) (ss : Session)
        (w0 w1 : World) (encrypted : Slice) :
  uuid.wf (SID ss) -> uuid.wf (UID ss) -> uuid.wf (RealUID ss) ->
  (24 <= length (rand w0))%nat ->
  base64_DecodeString
    (base64_EncodeToString
       (secretbox_Seal (firstn 24 (rand w0)) (fst (MarshalBinary (stamped ss w0)))
                       (firstn 24 (rand w0)) (Key s)))
  = (encrypted, None) ->
  elems encrypted
  = secretbox_Seal (firstn 24 (rand w0)) (fst (MarshalBinary (stamped ss w0)))
                   (firstn 24 (rand w0)) (Key s) ->
  (24 <= len encrypted <= cap encrypted)%nat ->
  secretbox_Open [] (skipn 24 (elems encrypted)) (firstn 24 (elems encrypted)) (Key s)
  = (fst (MarshalBinary (stamped ss w0)), true) ->
  time.Time_Sub (now w1) (time.Unix (time.Time_Unix (now w0)) 0) <= TTL s ->
  exists c : http.Cookie,
    Save s rw ss w0 = (None, rw ++ [c], stamped ss w0) /\
    Get s [http.sent (http.Name c) (http.Value c)] w1
    = Returned {| Valid := true;
                  Time := time.Unix (time.Time_Unix (now w0)) 0;
                  SID := SID ss; UID := UID ss; RealUID := RealUID ss;
                  State := State ss |}.
Proof.
  intros Hsid Huid Hreal Hrand Hdec Helems Hrange Hopen Hfresh.
  rewrite Helems in Hopen.
  destruct (Save_then_carries s rw ss w0 encrypted Hrand Hdec Helems Hrange Hopen)
    as (c & Hsave & Hcarries).
  exists c. split; [exact Hsave |].
  rewrite (Get_decoded s _ w1 _ Hcarries).
  rewrite (UnmarshalBinary_MarshalBinary Session_zero (stamped ss w0) Hsid Huid Hreal).
  cbn [Time SID UID RealUID State stamped].
  rewrite Z.gtb_ltb.
  destruct (Z.ltb_spec (TTL s)
              (time.Time_Sub (now w1) (time.Unix (time.Time_Unix (now w0)) 0)));
    [lia | reflexivity].
Qed.

Lemma Save_then_Get_witness :
  exists c : http.Cookie,
    Save (collab := Reference.collaborators) Example.store []
         (mkSession false time.zero (repeat x11 16) (repeat x22 16)
                    (repeat x33 16) [x61; x62])
         (mkWorld Example.t_save Example.entropy)
    = (None, [] ++ [c],
       stamped (mkSession false time.zero (repeat x11 16) (repeat x22 16)
                          (repeat x33 16) [x61; x62])
               (mkWorld Example.t_save Example.entropy)) /\
    Get (collab := Reference.collaborators) Example.store
        [http.sent (http.Name c) (http.Value c)]
        (mkWorld Example.t_edge Example.entropy)
    = Returned {| Valid := true;
                  Time := time.Unix (time.Time_Unix Example.t_save) 0;
                  SID := repeat x11 16; UID := repeat x22 16;
                  RealUID := repeat x33 16; State := [x61; x62] |}.
Proof.
  refine (Save_then_Get (collab := Reference.collaborators) Example.store []
            (mkSession false time.zero (repeat x11 16) (repeat x22 16)
                       (repeat x33 16) [x61; x62])
            (mkWorld Example.t_save Example.entropy)
            (mkWorld Example.t_edge Example.entropy)
            (fst (Reference.DecodeString
                    (Reference.EncodeToString
                       (Reference.Seal (firstn 24 Example.entropy)
                          (fst (MarshalBinary
                                  (stamped (mkSession false time.zero (repeat x11 16)
                                              (repeat x22 16) (repeat x33 16) [x61; x62])
                                           (mkWorld Example.t_save Example.entropy))))
                          (firstn 24 Example.entropy) (Key Example.store)))))
            _ _ _ _ _ _ _ _ _).
  - reflexivity.
  - reflexivity.
  - reflexivity.
  - vm_compute. lia.
  - vm_compute. reflexivity.
  - vm_compute. reflexivity.
  - vm_compute. lia.
  - vm_compute. reflexivity.
  - vm_compute. discriminate.
Defined.



(** X12. A store whose TTL is the largest duration never expires a cookie:
    the elapsed time saturates at that duration and so never exceeds it,
    however long ago the session was saved. *)
Theorem Get_never_expires {collab : Collaborators}
        (s : Store) (r : http.Request) (w : World) (saved : Session) :
  uuid.wf (SID saved) -> uuid.wf (UID saved) -> uuid.wf (RealUID saved) ->
  carries s r (fst (MarshalBinary saved)) ->
  TTL s = time.maxDuration ->
  Get s r w = Returned {| Valid := true;
                          Time := time.Unix (time.Time_Unix (Time saved)) 0;
                          SID := SID saved; UID := UID saved;
                          RealUID := RealUID saved; State := State saved |}.
Proof.
  intros Hsid Huid Hreal Hcarries Httl.
  rewrite (Get_decoded s r w _ Hcarries).
  rewrite (UnmarshalBinary_MarshalBinary Session_zero saved Hsid Huid Hreal).
  cbn [Time]. rewrite Z.gtb_ltb, Httl.
  pose proof (Time_Sub_le_max (now w) (time.Unix (time.Time_Unix (Time saved)) 0)).
  destruct (Z.ltb_spec time.maxDuration
              (time.Time_Sub (now w) (time.Unix (time.Time_Unix (Time saved)) 0)));
    [lia | reflexivity].
Qed.

Lemma Get_never_expires_witness :
  Get (collab := Reference.collaborators) Example.forever
      (Example.echo Example.saved_cookies) (mkWorld Example.t_far Example.entropy)
  = Returned {| Valid := true;
                Time := time.Unix (time.Time_Unix (Time (snd Example.saved))) 0;
                SID := SID Example.session; UID := UID Example.session;
                RealUID := RealUID Example.session;
                State := State Example.session |}.
Proof.
  exact (Get_never_expires (collab := Reference.collaborators) Example.forever
           (Example.echo Example.saved_cookies)
           (mkWorld Example.t_far Example.entropy) (snd Example.saved)
           eq_refl eq_refl eq_refl Example_carries_forever eq_refl).
Defined.

(** ** More on Save, Clear and New *)

Lemma length_copy (dst src : list byte) : length (copy dst src) = length dst.
Proof.
  unfold copy. rewrite length_app, length_firstn, length_skipn. lia.
Qed.

Lemma copy_same_length (dst src : list byte) :
  length src = length dst -> copy dst src = src.
Proof.
  intros H. unfold copy. rewrite <- H, Nat.min_id, firstn_all, H, skipn_all.
  apply app_nil_r.
Qed.



(** X14. [Clear] addresses the cookie [Save] sets: after a successful [Save]
    followed by [Clear], the response holds, after what it held before, the
    saved cookie and then a cookie of the same name, path, [HttpOnly] and
    [Secure], with an empty value and [MaxAge = -1]. *)
Theorem Clear_matches_Save {collab : Collaborators}
        (s : Store) (rw : http.ResponseWriter) (ss : Session) (w : World) :
  (24 <= length (rand w))%nat ->
  exists c1 c2 : http.Cookie,
    Clear s (snd (fst (Save s rw ss w))) = rw ++ [c1; c2] /\
    http.Name c2 = http.Name c1 /\
    http.Path c2 = http.Path c1 /\
    http.HttpOnly c2 = http.HttpOnly c1 /\
    http.Secure c2 = http.Secure c1 /\
    http.Value c2 = ""%string /\
    http.MaxAge c2 = -1.
Proof.
  intros H. rewrite (Save_with_nonce s rw ss w H). cbn [fst snd].
  unfold Clear, http.SetCookie. rewrite <- app_assoc. cbn [app].
  eexists _, _. split; [reflexivity |]. cbn. repeat split.
Qed.

Lemma Clear_matches_Save_witness :
  exists c1 c2 : http.Cookie,
    Clear Example.store Example.saved_cookies = [] ++ [c1; c2] /\
    http.Name c2 = http.Name c1 /\
    http.Path c2 = http.Path c1 /\
    http.HttpOnly c2 = http.HttpOnly c1 /\
    http.Secure c2 = http.Secure c1 /\
    http.Value c2 = ""%string /\
    http.MaxAge c2 = -1.
Proof.
  apply (Clear_matches_Save (collab := Reference.collaborators) Example.store []
           Example.session (mkWorld Example.t_save Example.entropy)).
  vm_compute. lia.
Defined.

(** X16. The store [New] builds: the name, secret and TTL given, [HttpOnly]
    and [Secure] off, and a key of exactly 32 bytes whatever the digest
    returns: the digest itself when it has 32 bytes.  The key depends on the
    secret alone. *)
Theorem New_store (sha256 : list byte -> list byte)
        (name secret : string) (ttl : time.Duration) :
  Name (New sha256 name secret ttl) = name /\
  Secret (New sha256 name secret ttl) = secret /\
  TTL (New sha256 name secret ttl) = ttl /\
  HttpOnly (New sha256 name secret ttl) = false /\
  Secure (New sha256 name secret ttl) = false /\
  length (Key (New sha256 name secret ttl)) = 32%nat /\
  (length (sha256 (list_byte_of_string secret)) = 32%nat ->
   Key (New sha256 name secret ttl) = sha256 (list_byte_of_string secret)) /\
  (forall (name' : string) (ttl' : time.Duration),
      Key (New sha256 name' secret ttl') = Key (New sha256 name secret ttl)).
Proof.
  unfold New. cbn [Name Secret TTL HttpOnly Secure Key].
  repeat (split; [reflexivity |]).
  split; [rewrite length_copy; reflexivity |].
  split; [| reflexivity].
  intros H. apply copy_same_length. rewrite H. reflexivity.
Qed.

Lemma New_store_witness :
  length (Example.digest (list_byte_of_string "s3cr3t")) = 32%nat /\
  Key (New Example.digest "session" "s3cr3t" time.Second)
  = Example.digest (list_byte_of_string "s3cr3t").
Proof.
  assert (H : length (Example.digest (list_byte_of_string "s3cr3t")) = 32%nat)
    by reflexivity.
  split; [exact H |].
  destruct (New_store Example.digest "session" "s3cr3t" time.Second)
    as (_ & _ & _ & _ & _ & _ & Hkey & _).
  exact (Hkey H).
Defined.

(** Adding a duration that is not negative: the result is in range and lies
    that duration later. *)
Lemma Time_Add_Sub (t : time.Time) (d : time.Duration) :
  time.wf t -> 0 <= d <= time.maxDuration ->
  time.sec t + d / time.Second + 1 < 2 ^ 63 ->
  time.wf (time.Time_Add t d) /\ time.Time_Sub (time.Time_Add t d) t = d.
Proof.
  unfold time.wf, time.maxDuration, time.Second.
  intros [Hsec Hnsec] Hd Hroom.
  unfold time.Time_Add.
  rewrite Z.quot_div_nonneg, Z.rem_mod_nonneg by lia.
  pose proof (Z.div_mod d 1000000000 ltac:(lia)) as Hdm.
  pose proof (Z.mod_pos_bound d 1000000000 ltac:(lia)) as Hm.
  assert (Hq : 0 <= d / 1000000000) by (apply Z.div_pos; lia).
  set (q := d / 1000000000) in *. set (m := d mod 1000000000) in *.
  rewrite Z.geb_leb.
  destruct (Z.leb_spec 1000000000 (time.nsec t + m)) as [Hcarry|Hnocarry].
  - rewrite int64_small by lia. rewrite !Z.gtb_ltb.
    destruct (Z.ltb_spec (time.sec t) (time.sec t + (q + 1))); [| lia].
    destruct (Z.ltb_spec 0 (q + 1)); [| lia].
    cbn [Bool.eqb]. unfold time.Time_Sub, time.maxDuration, time.minDuration, time.Second.
    cbn [time.sec time.nsec]. rewrite !Z.gtb_ltb.
    split; [lia |].
    repeat match goal with
           | |- context [?a <? ?b] => destruct (Z.ltb_spec a b)
           end; lia.
  - destruct (Z.ltb_spec (time.nsec t + m) 0); [lia |].
    rewrite int64_small by lia. rewrite !Z.gtb_ltb.
    assert (Heqb : Bool.eqb (time.sec t <? time.sec t + q) (0 <? q) = true).
    { destruct (Z.ltb_spec (time.sec t) (time.sec t + q));
        destruct (Z.ltb_spec 0 q); try lia; reflexivity. }
    rewrite Heqb.
    unfold time.Time_Sub, time.maxDuration, time.minDuration, time.Second.
    cbn [time.sec time.nsec]. rewrite !Z.gtb_ltb.
    split; [lia |].
    repeat match goal with
           | |- context [?a <? ?b] => destruct (Z.ltb_spec a b)
           end; lia.
Qed.

(** X15. How long the cookie [Save] sets is to live.  For a TTL from zero to
    below 2^31 seconds, where the conversion [int(...)] of the quotient
    changes nothing whether [int] has 32 or 64 bits, and a clock in range:
    [Expires] lies exactly the TTL after the time stamped on the session, and
    [MaxAge] is [int(TTL / time.Second)], the TTL in whole seconds rounded
    down: a TTL under one second gives [MaxAge = 0]. *)
Theorem Save_cookie_lifetime {collab : Collaborators}
        (s : Store) (rw : http.ResponseWriter) (ss : Session) (w : World) :
  (24 <= length (rand w))%nat ->
  time.wf (now w) ->
  0 <= TTL s < 2 ^ 31 * time.Second ->
  time.sec (now w) + TTL s / time.Second + 1 < 2 ^ 63 ->
  exists c : http.Cookie,
    snd (fst (Save s rw ss w)) = rw ++ [c] /\
    Time (snd (Save s rw ss w)) = now w /\
    time.wf (http.Expires c) /\
    time.Time_Sub (http.Expires c) (now w) = TTL s /\
    http.MaxAge c = int 32 (Z.quot (TTL s) time.Second) /\
    http.MaxAge c = int 64 (Z.quot (TTL s) time.Second) /\
    http.MaxAge c * time.Second <= TTL s < (http.MaxAge c + 1) * time.Second.
Proof.
  intros Hrand Hnow Httl Hroom.
  rewrite (Save_with_nonce s rw ss w Hrand). cbn [fst snd].
  eexists. split; [reflexivity |]. cbn [stamped Time http.Expires http.MaxAge].
  split; [reflexivity |].
  assert (Hmax : 0 <= TTL s <= time.maxDuration).
  { unfold time.maxDuration, time.Second in *. lia. }
  destruct (Time_Add_Sub (now w) (TTL s) Hnow Hmax Hroom) as [Hwf Hsub].
  split; [exact Hwf |]. split; [exact Hsub |].
  unfold time.Second in *. rewrite Z.quot_div_nonneg by lia.
  pose proof (Z.div_mod (TTL s) 1000000000 ltac:(lia)).
  pose proof (Z.mod_pos_bound (TTL s) 1000000000 ltac:(lia)).
  assert (Hq : 0 <= TTL s / 1000000000 < 2 ^ 31) by lia.
  unfold int. rewrite !Z.mod_small by lia.
  lia.
Qed.

Lemma Save_cookie_lifetime_witness :
  exists c : http.Cookie,
    Example.saved_cookies = [] ++ [c] /\
    Time (snd Example.saved) = Example.t_save /\
    time.wf (http.Expires c) /\
    time.Time_Sub (http.Expires c) Example.t_save = TTL Example.store /\
    http.MaxAge c = int 32 (Z.quot (TTL Example.store) time.Second) /\
    http.MaxAge c = int 64 (Z.quot (TTL Example.store) time.Second) /\
    http.MaxAge c * time.Second <= TTL Example.store
    < (http.MaxAge c + 1) * time.Second.
Proof.
  apply (Save_cookie_lifetime (collab := Reference.collaborators) Example.store []
           Example.session (mkWorld Example.t_save Example.entropy)).
  - vm_compute. lia.
  - vm_compute. repeat split; discriminate.
  - vm_compute. split; [discriminate | reflexivity].
  - vm_compute. reflexivity.
Defined.

(** X4. Every session [Get] returns has three identifiers of 128 bits, be it
    fresh or decoded: it meets what the round trip of the codec asks for, so
    it can be saved and read back. *)
Theorem Get_identifiers_wf {collab : Collaborators}
        (s : Store) (r : http.Request) (w : World) (ss : Session) :
  Get s r w = Returned ss ->
  uuid.wf (SID ss) /\ uuid.wf (UID ss) /\ uuid.wf (RealUID ss).
Proof.
  intros Hget.
  destruct (Get_cases s r w) as [Hanon | [Hpanic | Hdecoded]].
  - rewrite Hanon in Hget.
    destruct (anonymous_cases w) as [(e & He & _) | (u & Hu & _ & Hwf & _)].
    + rewrite He in Hget. discriminate Hget.
    + rewrite Hu in Hget. injection Hget as <-.
      cbn [SID UID RealUID]. split; [exact Hwf |]. split; reflexivity.
  - destruct Hpanic as (c & encrypted & _ & _ & _ & limit & Hp).
    rewrite Hp in Hget. discriminate Hget.
  - destruct Hdecoded as (c & encrypted & buf & ss' & _ & _ & _ & _ & _
                          & Hdec & _ & Hret).
    rewrite Hret in Hget. injection Hget as ->.
    destruct (Nat.lt_ge_cases (length buf) 56) as [Hlt|Hge].
    + rewrite UnmarshalBinary_short in Hdec by exact Hlt. discriminate Hdec.
    + rewrite UnmarshalBinary_long in Hdec by exact Hge. injection Hdec as <-.
      cbn [SID UID RealUID]. unfold uuid.wf, uuid.Size.
      rewrite !length_sub by lia. auto.
Qed.

Lemma Get_identifiers_wf_witness :
  uuid.wf (repeat x11 16) /\ uuid.wf (repeat x22 16) /\ uuid.wf (repeat x33 16).
Proof.
  apply (Get_identifiers_wf (collab := Reference.collaborators) Example.store
           (Example.echo Example.saved_cookies)
           (mkWorld Example.t_edge Example.entropy)
           {| Valid := true;
              Time := time.mkTime (time.unixToInternal + 100) 0;
              SID := repeat x11 16; UID := repeat x22 16;
              RealUID := repeat x33 16; State := [x61; x62] |}).
  vm_compute. reflexivity.
Defined.
